(** * NeoTrade service workers: caching policy, offline queue and sync

    A shallow embedding of the two service-worker scripts of the
    repository, [src/service-worker.js] (cache generation
    [neotrade-v1.0.0]) and [src/sw.js] (generation [v4]), and the
    properties of their caching and synchronisation policy.

    The scripts are event handlers that run against the browser's
    service-worker platform.  The platform objects the handlers call
    (CacheStorage, Cache, fetch, Clients, JSON, the push payload) are
    modelled in [Platform] with the behaviour the handlers rely on; the
    handlers themselves are in [ServiceWorker] and [SW], one definition
    per listener or helper function of the source.

    A handler is a function on the state the worker can see ([World]):
    the caches, the connected clients, a trace of the calls that reach
    the outside (fetches issued, messages posted, notifications, cache
    deletions, [skipWaiting], [claim]) and the promise chains that were
    started and not waited for.  A chain the source leaves detached is
    kept as a [Task] and run by [run_detached]; a chain the source
    waits for runs where it is awaited.  The network, the JSON codec
    and the worker's location are the [Host]'s.

    The members of a [Promise.allSettled] or [Promise.all] run in the
    order of the list.  For the drain this fixes an order among
    deliveries that the browser interleaves; each of them reads and
    deletes its own key only, and deletions of distinct keys commute
    ([without_comm]).

    Not embedded, for no property below depends on them: [console.log],
    the [notificationclick] listeners, [syncMarketData], [syncTrades],
    the [SKIP_WAITING] and [GET_VERSION] messages, [cleanupOldCache]. *)

From Stdlib Require Import String Ascii List ZArith Bool Lia Arith.
From Stdlib Require Import DecimalString.
From Stdlib Require Decimal DecimalZ DecimalPos.
Import ListNotations.
Local Open Scope string_scope.
Local Open Scope list_scope.
Set Warnings "-register-all".

(** ** Strings as JavaScript uses them *)

Module JsString.

(** [s.includes(pat)]: [pat] occurs in [s] as a contiguous substring. *)
Fixpoint includes (s pat : string) : bool :=
  String.prefix pat s ||
  match s with
  | EmptyString => false
  | String _ s' => includes s' pat
  end.

(** No character of [s] is [c]. *)
Fixpoint lacks (c : ascii) (s : string) : bool :=
  match s with
  | EmptyString => true
  | String a s' => negb (Ascii.eqb a c) && lacks c s'
  end.

(** Template-literal rendering of an integral number: decimal digits,
    with a leading minus sign below zero. *)
Definition of_Z (z : Z) : string := NilZero.string_of_int (Z.to_int z).

End JsString.

(** ** URLs and the worker's origin *)

Record URL := mkURL {
  u_scheme : string;      (* "https" *)
  u_hostname : string;    (* url.hostname *)
  u_port : string;        (* "" when the scheme's default port is used *)
  u_pathname : string;    (* url.pathname, starts with "/" *)
  u_search : string       (* "" or "?..." *)
}.

Definition port_part (p : string) : string :=
  match p with
  | EmptyString => ""
  | _ => ":" ++ p
  end.

(** The serialisation, [request.url] and [url.href]. *)
Definition href (u : URL) : string :=
  u_scheme u ++ "://" ++ u_hostname u ++ port_part (u_port u)
    ++ u_pathname u ++ u_search u.

(** The origin against which the worker resolves relative URLs
    ([self.location]). *)
Record Origin := mkOrigin {
  o_scheme : string;
  o_hostname : string;
  o_port : string
}.

(** [new URL(path, self.location)] for an absolute path. *)
Definition resolve (o : Origin) (path : string) : URL :=
  mkURL (o_scheme o) (o_hostname o) (o_port o) path "".

(** A well-formed origin has no slash inside its components. *)
Definition wf_origin (o : Origin) : Prop :=
  JsString.lacks "/" (o_scheme o) = true /\
  JsString.lacks "/" (o_hostname o) = true /\
  JsString.lacks "/" (o_port o) = true.

(** ** The platform the handlers run on *)

Module Platform.

(** *** Values *)

(** JavaScript values that cross the worker's interfaces: message
    payloads, parsed JSON, notification options.  Numbers are the
    integral ones the scripts compute with (counts and timestamps). *)
Inductive json :=
| JUndefined
| JNull
| JBool (b : bool)
| JNum (z : Z)
| JStr (s : string)
| JArr (items : list json)
| JObj (fields : list (string * json)).

(** A thrown value or the reason of a rejected promise. *)
Record exn := mkExn { e_name : string; e_message : string }.

Definition TypeError (msg : string) : exn := mkExn "TypeError" msg.
Definition SyntaxError (msg : string) : exn := mkExn "SyntaxError" msg.
Definition Error (msg : string) : exn := mkExn "Error" msg.

(** How a promise settles; also the result of code that may throw. *)
Inductive Settled (A : Type) :=
| Fulfilled (v : A)
| Rejected (reason : exn).
Arguments Fulfilled {A} v.
Arguments Rejected {A} reason.

Definition is_fulfilled {A} (r : Settled A) : bool :=
  match r with Fulfilled _ => true | Rejected _ => false end.

Fixpoint lookup_field (k : string) (fields : list (string * json)) : json :=
  match fields with
  | [] => JUndefined
  | (k', v) :: rest => if String.eqb k k' then v else lookup_field k rest
  end.

(** Property read [v.k] for the property names the scripts use (none of
    them is a built-in of a primitive or of an array): reading from
    [undefined] or [null] throws, from a primitive gives [undefined]. *)
Definition get_prop (v : json) (k : string) : Settled json :=
  match v with
  | JUndefined | JNull =>
      Rejected (TypeError ("Cannot read properties of null or undefined: " ++ k))
  | JObj fields => Fulfilled (lookup_field k fields)
  | _ => Fulfilled JUndefined
  end.

Definition truthy (v : json) : bool :=
  match v with
  | JUndefined | JNull => false
  | JBool b => b
  | JNum z => negb (Z.eqb z 0)
  | JStr s => negb (String.eqb s "")
  | JArr _ | JObj _ => true
  end.

(** [a || b] *)
Definition js_or (a b : json) : json := if truthy a then a else b.

(** [v === "s"] *)
Definition is_str (v : json) (s : string) : bool :=
  match v with
  | JStr s' => String.eqb s' s
  | _ => false
  end.

(** *** Requests and responses *)

Record Request := mkRequest {
  r_method : string;
  r_url : URL;
  r_headers : list (string * string);
  r_body : option string
}.

(** [new Request(url)] *)
Definition GET (u : URL) : Request := mkRequest "GET" u [] None.

Inductive ResponseType :=
| basic | cors | default | error | opaque | opaqueredirect.

Record Response := mkResponse {
  status : nat;
  rtype : ResponseType;
  body : string
}.

(** [response.ok] *)
Definition ok (r : Response) : bool :=
  Nat.leb 200 (status r) && Nat.leb (status r) 299.

(** [new Response(text)]; an [undefined] argument gives an empty body. *)
Definition new_Response (text : option string) : Response :=
  mkResponse 200 default (match text with Some t => t | None => "" end).

Definition is_basic (t : ResponseType) : bool :=
  match t with basic => true | _ => false end.

Inductive FetchResult :=
| NetFail                    (* timeout, DNS failure, offline *)
| NetResp (r : Response).

(** *** What the host provides

    [net n req] is how the [n]-th fetch issued by the worker settles
    when it is a fetch of [req]: any behaviour of the network over time
    is some such function.  [JSON_stringify] gives [None] where
    JavaScript gives [undefined]. *)
Class Host := {
  net : nat -> Request -> FetchResult;
  JSON_parse : string -> option json;
  JSON_stringify : json -> option string;
  location : Origin
}.

(** *** Worker-visible state *)

Definition Client := nat.
Definition Cache := list (Request * Response).

(** A promise chain the handler started but does not wait for. *)
Inductive Task :=
| TPut (name : string) (req : Request) (resp : Response)
    (* caches.open(name).then(cache => cache.put(req, resp)) *)
| TRefresh (n : nat) (name : string) (req : Request)
    (* the [then] of fetch number [n]: if (response.ok) put it in [name] *)
| TBroadcast (msg : json)
    (* clients.matchAll().then(cs => cs.forEach(c => c.postMessage(msg))) *)
| TOfflineDataSaved (timestamp : Z) (data : json).
    (* the same with the message built, per client, from [data.type] *)

Inductive Effect :=
| EFetch (n : nat) (req : Request)          (* fetch number [n] issued *)
| EPost (c : Client) (msg : json)           (* client.postMessage(msg) *)
| ENotify (title options : json)            (* registration.showNotification *)
| ESkipWaiting
| EClaim                                    (* clients.claim() *)
| ECachesDelete (name : string).            (* caches.delete(name) *)

Record World := mkWorld {
  w_caches : list (string * Cache);  (* CacheStorage, in creation order *)
  w_clients : list Client;           (* what clients.matchAll() gives *)
  w_issued : nat;                    (* number of fetches issued so far *)
  w_trace : list Effect;             (* oldest first *)
  w_detached : list Task             (* started, not yet run *)
}.

Definition set_caches (cs : list (string * Cache)) (w : World) : World :=
  mkWorld cs (w_clients w) (w_issued w) (w_trace w) (w_detached w).

(** *** Code that reads and writes the state and may throw *)

Definition M (A : Type) : Type := World -> Settled A * World.

Definition ret {A} (a : A) : M A := fun w => (Fulfilled a, w).

Definition throw {A} (e : exn) : M A := fun w => (Rejected e, w).

Definition bind {A B} (m : M A) (k : A -> M B) : M B :=
  fun w =>
    match m w with
    | (Fulfilled a, w') => k a w'
    | (Rejected e, w') => (Rejected e, w')
    end.

(** [try { m } catch (e) { h e }], and [p.catch(h)]. *)
Definition catch {A} (m : M A) (h : exn -> M A) : M A :=
  fun w =>
    match m w with
    | (Fulfilled a, w') => (Fulfilled a, w')
    | (Rejected e, w') => h e w'
    end.

Definition lift {A} (r : Settled A) : M A := fun w => (r, w).

Declare Scope js_scope.
Delimit Scope js_scope with js.
Notation "x <- m ;; k" := (bind m (fun x => k))
  (at level 61, m at next level, right associativity) : js_scope.
Notation "m ;; k" := (bind m (fun _ => k))
  (at level 61, right associativity) : js_scope.
Local Open Scope js_scope.

Definition log (e : Effect) : M unit :=
  fun w => (Fulfilled tt,
            mkWorld (w_caches w) (w_clients w) (w_issued w)
                    (w_trace w ++ [e]) (w_detached w)).

Definition spawn (t : Task) : M unit :=
  fun w => (Fulfilled tt,
            mkWorld (w_caches w) (w_clients w) (w_issued w)
                    (w_trace w) (w_detached w ++ [t])).

(** [Promise.allSettled(ms)]: every member runs, none aborts the rest. *)
Fixpoint allSettled {A} (ms : list (M A)) : M (list (Settled A)) :=
  match ms with
  | [] => ret []
  | m :: rest =>
      fun w =>
        let (r, w1) := m w in
        match allSettled rest w1 with
        | (Fulfilled rs, w2) => (Fulfilled (r :: rs), w2)
        | (Rejected e, w2) => (Rejected e, w2)
        end
  end.

Fixpoint first_rejection {A} (rs : list (Settled A)) : Settled (list A) :=
  match rs with
  | [] => Fulfilled []
  | Rejected e :: _ => Rejected e
  | Fulfilled a :: rest =>
      match first_rejection rest with
      | Fulfilled l => Fulfilled (a :: l)
      | Rejected e => Rejected e
      end
  end.

(** [Promise.all(ms)]: every member was started by the caller; the
    result is the values, or the first rejection. *)
Definition Promise_all {A} (ms : list (M A)) : M (list A) :=
  rs <- allSettled ms ;; lift (first_rejection rs).

(** An [async] function called without [await]: it runs, and a
    rejection is reported nowhere. *)
Definition unawaited {A} (m : M A) : M unit :=
  fun w => (Fulfilled tt, snd (m w)).

(** *** fetch *)

Section WithHost.
Context `{Host}.

Definition fetch_issue (req : Request) : M nat :=
  fun w => (Fulfilled (w_issued w),
            mkWorld (w_caches w) (w_clients w) (S (w_issued w))
                    (w_trace w ++ [EFetch (w_issued w) req]) (w_detached w)).

Definition fetch_settle (n : nat) (req : Request) : Settled Response :=
  match net n req with
  | NetFail => Rejected (TypeError "Failed to fetch")
  | NetResp r => Fulfilled r
  end.

(** [await fetch(req)] *)
Definition fetch (req : Request) : M Response :=
  n <- fetch_issue req ;; lift (fetch_settle n req).

(** *** Cache and CacheStorage *)

(** An entry answers a query when the query is a GET for the same URL. *)
Definition matches (q k : Request) : bool :=
  String.eqb (r_method q) "GET" && String.eqb (href (r_url q)) (href (r_url k)).

Definition cache_find (q : Request) (c : Cache) : option Response :=
  match find (fun e => matches q (fst e)) c with
  | Some e => Some (snd e)
  | None => None
  end.

Fixpoint storage_find (q : Request) (cs : list (string * Cache)) : option Response :=
  match cs with
  | [] => None
  | (_, c) :: rest =>
      match cache_find q c with
      | Some r => Some r
      | None => storage_find q rest
      end
  end.

Fixpoint get_cache (name : string) (cs : list (string * Cache)) : option Cache :=
  match cs with
  | [] => None
  | (n, c) :: rest => if String.eqb n name then Some c else get_cache name rest
  end.

Definition has_cache (name : string) (cs : list (string * Cache)) : bool :=
  match get_cache name cs with Some _ => true | None => false end.

Fixpoint update_cache (name : string) (f : Cache -> Cache)
    (cs : list (string * Cache)) : list (string * Cache) :=
  match cs with
  | [] => []
  | (n, c) :: rest =>
      if String.eqb n name then (n, f c) :: rest
      else (n, c) :: update_cache name f rest
  end.

(** The entries of the named cache; none when there is no such cache. *)
Definition entries (name : string) (w : World) : Cache :=
  match get_cache name (w_caches w) with Some c => c | None => [] end.

(** [caches.open(name)]: creates the cache when absent. *)
Definition caches_open (name : string) : M unit :=
  fun w =>
    (Fulfilled tt,
     if has_cache name (w_caches w) then w
     else set_caches (w_caches w ++ [(name, [])]) w).

(** [caches.keys()] *)
Definition caches_keys : M (list string) :=
  fun w => (Fulfilled (map fst (w_caches w)), w).

(** [caches.delete(name)] *)
Definition caches_delete (name : string) : M bool :=
  fun w =>
    (Fulfilled (has_cache name (w_caches w)),
     mkWorld (filter (fun nc => negb (String.eqb (fst nc) name)) (w_caches w))
             (w_clients w) (w_issued w)
             (w_trace w ++ [ECachesDelete name]) (w_detached w)).

(** [caches.match(req)]: the first hit over all caches, in creation
    order; [None] is the [undefined] a miss resolves to. *)
Definition caches_match (req : Request) : M (option Response) :=
  fun w => (Fulfilled (storage_find req (w_caches w)), w).

(** [cache.keys()], [cache.match(req)], [cache.delete(req)] and
    [cache.put(req, resp)] on the cache opened under [name].  A put
    replaces what the request matched and rejects any request that is
    not a GET. *)
Definition cache_keys (name : string) : M (list Request) :=
  fun w => (Fulfilled (map fst (entries name w)), w).

Definition cache_match (name : string) (req : Request) : M (option Response) :=
  fun w => (Fulfilled (cache_find req (entries name w)), w).

Definition without (req : Request) (c : Cache) : Cache :=
  filter (fun e => negb (matches req (fst e))) c.

Definition cache_delete (name : string) (req : Request) : M bool :=
  fun w =>
    (Fulfilled (match cache_find req (entries name w) with
                | Some _ => true | None => false end),
     set_caches (update_cache name (without req) (w_caches w)) w).

Definition cache_put (name : string) (req : Request) (resp : Response) : M unit :=
  fun w =>
    if String.eqb (r_method req) "GET" then
      (Fulfilled tt,
       set_caches (update_cache name (fun c => without req c ++ [(req, resp)])
                                (w_caches w)) w)
    else (Rejected (TypeError "Request method is unsupported"), w).

Definition all_ok (rs : list (Settled Response)) : option (list Response) :=
  match first_rejection rs with
  | Fulfilled l => if forallb ok l then Some l else None
  | Rejected _ => None
  end.

Fixpoint put_all (name : string) (es : list (Request * Response)) : M unit :=
  match es with
  | [] => ret tt
  | (q, r) :: rest => cache_put name q r ;; put_all name rest
  end.

(** [cache.addAll(reqs)]: all are fetched; the cache is written only
    when every one of them answered with a successful status. *)
Definition cache_addAll (name : string) (reqs : list Request) : M unit :=
  rs <- allSettled (map fetch reqs) ;;
  match all_ok rs with
  | Some l => put_all name (combine reqs l)
  | None => throw (TypeError "Request failed")
  end.

(** A URL as the scripts write it: a path resolved against the worker's
    location, or an absolute URL. *)
Inductive UrlSpec :=
| Path (p : string)
| Absolute (u : URL).

Definition request_of (s : UrlSpec) : Request :=
  GET (match s with
       | Path p => resolve location p
       | Absolute u => u
       end).

(** *** Clients, notifications, JSON bodies *)

Definition postMessage (c : Client) (msg : json) : M unit := log (EPost c msg).

Fixpoint forEach {A} (f : A -> M unit) (l : list A) : M unit :=
  match l with
  | [] => ret tt
  | a :: rest => f a ;; forEach f rest
  end.

Definition clients_matchAll : M (list Client) :=
  fun w => (Fulfilled (w_clients w), w).

Definition showNotification (title options : json) : M unit :=
  log (ENotify title options).

(** [response.json()], on what [cache.match] resolved to. *)
Definition response_json (r : option Response) : Settled json :=
  match r with
  | None => Rejected (TypeError "Cannot read properties of undefined: json")
  | Some resp =>
      match JSON_parse (body resp) with
      | Some v => Fulfilled v
      | None => Rejected (SyntaxError "Unexpected token")
      end
  end.

(** The payload of a push event: [None] when [event.data] is null,
    otherwise its raw text. *)
Definition PushData := option string.

Definition data_json (d : PushData) : Settled json :=
  match d with
  | None => Rejected (TypeError "Cannot read properties of null: json")
  | Some t =>
      match JSON_parse t with
      | Some v => Fulfilled v
      | None => Rejected (SyntaxError "Unexpected token")
      end
  end.

Definition data_text (d : PushData) : Settled string :=
  match d with
  | None => Rejected (TypeError "Cannot read properties of null: text")
  | Some t => Fulfilled t
  end.

(** The message [saveOfflineData] posts to each client. *)
Definition OFFLINE_DATA_SAVED (timestamp : Z) (type : json) : json :=
  JObj [("type", JStr "OFFLINE_DATA_SAVED");
        ("data", JObj [("id", JNum timestamp); ("type", type)])].

(** *** Running what was detached *)

Definition run_task (t : Task) : M unit :=
  match t with
  | TPut name req resp => caches_open name ;; cache_put name req resp
  | TRefresh n name req =>
      response <- lift (fetch_settle n req) ;;
      if ok response then caches_open name ;; cache_put name req response
      else ret tt
  | TBroadcast msg =>
      clients <- clients_matchAll ;;
      forEach (fun c => postMessage c msg) clients
  | TOfflineDataSaved timestamp data =>
      clients <- clients_matchAll ;;
      forEach (fun c =>
                 ty <- lift (get_prop data "type") ;;
                 postMessage c (OFFLINE_DATA_SAVED timestamp ty))
              clients
  end.

(** The detached chains run to their end in the order they were
    started; a rejection in one of them is unhandled and lost. *)
Definition run_detached (w : World) : World :=
  fold_left (fun w t => snd (run_task t w)) (w_detached w)
            (mkWorld (w_caches w) (w_clients w) (w_issued w) (w_trace w) []).

End WithHost.

(** *** Lifecycle *)

Inductive Phase :=
| Installing
| Installed       (* waiting: eligible to activate *)
| Redundant.      (* discarded; the previous version stays active *)

(** The install phase succeeds exactly when the promise the handler
    passed to [event.waitUntil] is fulfilled. *)
Definition after_install (lifetime : Settled unit) : Phase :=
  match lifetime with
  | Fulfilled _ => Installed
  | Rejected _ => Redundant
  end.

(** What a fetch listener decides for an intercepted request. *)
Inductive FetchDecision :=
| PassThrough                                (* no respondWith: the browser fetches *)
| RespondWith (p : Settled (option Response)). (* what respondWith's promise settles to *)

(** *** Windows, for the [notificationclick] listeners

    A click listener reads and writes no cache and issues no fetch; what
    it does is to the notification and to the windows that
    [clients.matchAll({type: 'window', ...})] resolves to, which it is
    given. *)
Record WindowClient := mkWindow {
  wc_id : Client;
  wc_url : string       (* client.url *)
}.

Inductive UiEffect :=
| UClose                                   (* event.notification.close() *)
| UFocus (c : WindowClient)                (* client.focus() *)
| UPost (c : WindowClient) (msg : json)    (* client.postMessage(msg) *)
| UOpenWindow (url : string).              (* clients.openWindow(url) *)

End Platform.

(** ** [src/service-worker.js] *)

Module ServiceWorker.
Import Platform.
Local Open Scope js_scope.

Definition CACHE_NAME : string := "neotrade-v1.0.0".

Definition CACHE_URLS : list UrlSpec :=
  [ Path "/";
    Path "/index.html";
    Path "/manifest.json";
    Absolute (mkURL "https" "cdnjs.cloudflare.com" ""
                    "/ajax/libs/font-awesome/6.4.0/css/all.min.css" "") ].

(** The cache that holds the offline queue. *)
Definition OFFLINE : string := "offline-data".

Section WithHost.
Context `{Host}.

(** The [install] listener; the result is the promise given to
    [event.waitUntil]. *)
Definition on_install : M unit :=
  caches_open CACHE_NAME ;;
  cache_addAll CACHE_NAME (map request_of CACHE_URLS) ;;
  log ESkipWaiting.

(** The [activate] listener. *)
Definition on_activate : M unit :=
  cacheNames <- caches_keys ;;
  Promise_all
    (map (fun cacheName =>
            if negb (String.eqb cacheName CACHE_NAME)
            then caches_delete cacheName ;; ret tt
            else ret tt)
         cacheNames) ;;
  log EClaim.

Definition is_api (url : URL) : bool :=
  JsString.includes (u_pathname url) "/api/" ||
  String.eqb (u_hostname url) "fapi.binance.com".

(** API requests: network first, then cache. *)
Definition network_first (request : Request) : M (option Response) :=
  catch
    (response <- fetch request ;;
     (if Nat.eqb (status response) 200
      then spawn (TPut CACHE_NAME request response)
      else ret tt) ;;
     ret (Some response))
    (fun _ => caches_match request).

(** Static assets: cache first. *)
Definition cache_first (request : Request) : M (option Response) :=
  response <- caches_match request ;;
  match response with
  | Some r => ret (Some r)
  | None => r <- fetch request ;; ret (Some r)
  end.

(** The [fetch] listener. *)
Definition on_fetch (request : Request) (w : World) : FetchDecision * World :=
  let url := r_url request in
  let (p, w') :=
    (if is_api url then network_first request else cache_first request) w in
  (RespondWith p, w').

Definition sync_request (data : json) : Request :=
  mkRequest "POST" (resolve location "/api/trades/sync")
            [("Content-Type", "application/json")] (JSON_stringify data).

Definition is_trade (key : Request) : bool :=
  JsString.includes (href (r_url key)) "/api/trades".

(** The body of the [async request => ...] mapped over the trade
    requests in [syncOfflineTrades]. *)
Definition sync_one (request : Request) : M json :=
  response <- cache_match OFFLINE request ;;
  data <- lift (response_json response) ;;
  serverResponse <- fetch (sync_request data) ;;
  if ok serverResponse then
    cache_delete OFFLINE request ;;
    ret (JObj [("success", JBool true); ("data", data)])
  else throw (Error "Sync failed").

Definition SYNC_COMPLETED (synced total : nat) : json :=
  JObj [("type", JStr "SYNC_COMPLETED");
        ("data", JObj [("synced", JNum (Z.of_nat synced));
                       ("total", JNum (Z.of_nat total))])].

Definition SYNC_FAILED (message : string) : json :=
  JObj [("type", JStr "SYNC_FAILED");
        ("data", JObj [("error", JStr message)])].

Definition syncOfflineTrades : M unit :=
  catch
    (caches_open OFFLINE ;;
     keys <- cache_keys OFFLINE ;;
     let tradeRequests := filter is_trade keys in
     results <- allSettled (map sync_one tradeRequests) ;;
     let successCount := length (filter is_fulfilled results) in
     spawn (TBroadcast (SYNC_COMPLETED successCount (length tradeRequests))))
    (fun error =>
       spawn (TBroadcast (SYNC_FAILED (e_message error))) ;;
       throw error).

Definition offline_url (timestamp : Z) : URL :=
  resolve location ("/api/offline/" ++ JsString.of_Z timestamp).

(** [saveOfflineData(data)], with [timestamp] what [Date.now()] reads. *)
Definition saveOfflineData (timestamp : Z) (data : json) : M unit :=
  caches_open OFFLINE ;;
  let request := GET (offline_url timestamp) in
  let response := new_Response (JSON_stringify data) in
  cache_put OFFLINE request response ;;
  spawn (TOfflineDataSaved timestamp data).

(** The [sync] listener. *)
Definition on_sync (tag : string) : M unit :=
  if String.eqb tag "offline-trades" then syncOfflineTrades else ret tt.

(** The [push] listener. *)
Definition on_push (event_data : PushData) : M unit :=
  data <- catch (lift (data_json event_data))
                (fun _ =>
                   text <- lift (data_text event_data) ;;
                   ret (JObj [("title", JStr "NeoTrade");
                              ("body", JStr text);
                              ("icon", JStr "/icon-192.png")])) ;;
  body <- lift (get_prop data "body") ;;
  icon <- lift (get_prop data "icon") ;;
  data_data <- lift (get_prop data "data") ;;
  let options :=
    JObj [("body", body);
          ("icon", js_or icon (JStr "/icon-192.png"));
          ("badge", JStr "/badge-72.png");
          ("vibrate", JArr [JNum 100; JNum 50; JNum 100]);
          ("data", js_or data_data (JObj []));
          ("actions",
           JArr [JObj [("action", JStr "view-trade"); ("title", JStr "View Trade")];
                 JObj [("action", JStr "dismiss"); ("title", JStr "Dismiss")]]);
          ("requireInteraction", JBool true)] in
  title <- lift (get_prop data "title") ;;
  showNotification (js_or title (JStr "NeoTrade")) options.

(** The [message] listener; [now] is what [Date.now()] reads if the
    message makes the worker save. *)
Definition on_message (now : Z) (event_data : json) : M unit :=
  type <- lift (get_prop event_data "type") ;;
  if is_str type "SEND_NOTIFICATION" then
    d <- lift (get_prop event_data "data") ;;
    title <- lift (get_prop d "title") ;;
    body <- lift (get_prop d "body") ;;
    showNotification title
      (JObj [("body", body);
             ("icon", JStr "/icon-192.png");
             ("badge", JStr "/badge-72.png");
             ("data", d);
             ("requireInteraction", JBool true)])
  else if is_str type "SAVE_OFFLINE_DATA" then
    d <- lift (get_prop event_data "data") ;;
    unawaited (saveOfflineData now d)
  else if is_str type "SYNC_NOW" then
    unawaited syncOfflineTrades
  else ret tt.

(** The request of [fetch('https://fapi.binance.com/fapi/v1/ticker/24hr')]
    and of [new Request(...)] on the same URL. *)
Definition TICKER : Request :=
  GET (mkURL "https" "fapi.binance.com" "" "/fapi/v1/ticker/24hr" "").

Definition syncMarketData : M unit :=
  catch
    (response <- fetch TICKER ;;
     data <- lift (response_json (Some response)) ;;
     caches_open CACHE_NAME ;;
     cache_put CACHE_NAME TICKER (new_Response (JSON_stringify data)))
    (fun _ => ret tt).

(** The [periodicsync] listener. *)
Definition on_periodicsync (tag : string) : M unit :=
  if String.eqb tag "market-data-sync" then syncMarketData else ret tt.

Definition NOTIFICATION_CLICKED (data : json) : json :=
  JObj [("type", JStr "NOTIFICATION_CLICKED"); ("data", data)].

(** The [notificationclick] listener, on [event.action], on
    [event.notification.data] and on the windows that
    [clients.matchAll({type: 'window', includeUncontrolled: true})]
    resolves to. *)
Definition on_notificationclick (action : string) (notificationData : json)
    (windowClients : list WindowClient) : Settled unit * list UiEffect :=
  if String.eqb action "view-trade" then
    match get_prop notificationData "symbol" with
    | Rejected e => (Rejected e, [UClose])
    | Fulfilled symbol =>
        if truthy symbol then
          match windowClients with
          | client :: _ =>
              (Fulfilled tt,
               [UClose; UFocus client;
                UPost client (NOTIFICATION_CLICKED notificationData)])
          | [] => (Fulfilled tt, [UClose; UOpenWindow "/"])
          end
        else (Fulfilled tt, [UClose])
    end
  else (Fulfilled tt, [UClose]).

End WithHost.
End ServiceWorker.

(** ** [src/sw.js] *)

Module SW.
Import Platform.
Local Open Scope js_scope.

Definition CACHE_NAME : string := "neotrade-v4".
Definition STATIC_CACHE_NAME : string := "neotrade-static-v4".
Definition DYNAMIC_CACHE_NAME : string := "neotrade-dynamic-v4".

Definition STATIC_ASSETS : list UrlSpec :=
  [ Path "/";
    Path "/index.html";
    Path "/manifest.json";
    Absolute (mkURL "https" "cdnjs.cloudflare.com" ""
                    "/ajax/libs/font-awesome/6.4.0/css/all.min.css" "");
    Absolute (mkURL "https" "fonts.googleapis.com" "" "/css2"
                    "?family=Inter:wght@300;400;500;600;700;800&display=swap") ].

Section WithHost.
Context `{Host}.

(** The [install] listener.  [self.skipWaiting()] is called by the
    listener itself, before anything of the chain given to
    [event.waitUntil] has run; the result is that chain. *)
Definition on_install : M unit :=
  log ESkipWaiting ;;
  caches_open STATIC_CACHE_NAME ;;
  cache_addAll STATIC_CACHE_NAME (map request_of STATIC_ASSETS).

(** The [activate] listener.  [self.clients.claim()] is called by the
    listener itself, before the [then] of [caches.keys()] runs. *)
Definition on_activate : M unit :=
  log EClaim ;;
  cacheNames <- caches_keys ;;
  Promise_all
    (map (fun cacheName =>
            if negb (String.eqb cacheName STATIC_CACHE_NAME) &&
               negb (String.eqb cacheName DYNAMIC_CACHE_NAME)
            then caches_delete cacheName ;; ret tt
            else ret tt)
         cacheNames) ;;
  ret tt.

Definition is_api (url : URL) : bool :=
  JsString.includes (u_hostname url) "binance.com" ||
  JsString.includes (u_hostname url) "binance.me".

Definition network_first (request : Request) : M (option Response) :=
  catch
    (response <- fetch request ;;
     (if ok response
      then spawn (TPut DYNAMIC_CACHE_NAME request response)
      else ret tt) ;;
     ret (Some response))
    (fun _ => caches_match request).

Definition cache_first (request : Request) : M (option Response) :=
  cachedResponse <- caches_match request ;;
  match cachedResponse with
  | Some cached =>
      (* Update cache in background *)
      n <- fetch_issue request ;;
      spawn (TRefresh n STATIC_CACHE_NAME request) ;;
      ret (Some cached)
  | None =>
      response <- fetch request ;;
      if negb (Nat.eqb (status response) 200) || negb (is_basic (rtype response))
      then ret (Some response)
      else
        spawn (TPut STATIC_CACHE_NAME request response) ;;
        ret (Some response)
  end.

(** The [fetch] listener. *)
Definition on_fetch (request : Request) (w : World) : FetchDecision * World :=
  let url := r_url request in
  if negb (String.eqb (r_method request) "GET") then (PassThrough, w)
  else if is_api url then
    let (p, w') := network_first request w in (RespondWith p, w')
  else
    let (p, w') := cache_first request w in (RespondWith p, w').

(** The [push] listener; [now] is what [Date.now()] reads. *)
Definition on_push (now : Z) (event_data : PushData) : M unit :=
  data <- lift (match event_data with
                | Some _ => data_json event_data
                | None => Fulfilled (JObj [])
                end) ;;
  body <- lift (get_prop data "body") ;;
  tradeId <- lift (get_prop data "tradeId") ;;
  symbol <- lift (get_prop data "symbol") ;;
  type <- lift (get_prop data "type") ;;
  let options :=
    JObj [("body", js_or body (JStr "New trade notification"));
          ("icon", JStr "/icons/icon-192.png");
          ("badge", JStr "/icons/badge-72.png");
          ("vibrate", JArr [JNum 100; JNum 50; JNum 100]);
          ("data", JObj [("dateOfArrival", JNum now);
                         ("primaryKey", JStr "trade-notification");
                         ("tradeId", tradeId);
                         ("symbol", symbol);
                         ("type", type)]);
          ("actions",
           JArr [JObj [("action", JStr "open"); ("title", JStr "Open Trade")];
                 JObj [("action", JStr "close"); ("title", JStr "Dismiss")]])] in
  title <- lift (get_prop data "title") ;;
  showNotification (js_or title (JStr "NeoTrade Alert")) options.

Definition SYNC_TRADES_REQUEST : json :=
  JObj [("type", JStr "SYNC_TRADES_REQUEST")].

Definition syncTrades : M unit :=
  catch
    (clients <- clients_matchAll ;;
     forEach (fun client => postMessage client SYNC_TRADES_REQUEST) clients)
    (fun _ => ret tt).

(** The [sync] listener. *)
Definition on_sync (tag : string) : M unit :=
  if String.eqb tag "sync-trades" then syncTrades else ret tt.

Definition notification_click (tradeId symbol : json) : json :=
  JObj [("type", JStr "notification-click");
        ("action", JStr "open-trade");
        ("tradeId", tradeId);
        ("symbol", symbol)].

(** The [notificationclick] listener, on [event.action], on
    [event.notification.data] and on the windows that
    [clients.matchAll({type: 'window'})] resolves to.  Every one of
    them has a [focus]. *)
Definition on_notificationclick (action : string) (data : json)
    (clientList : list WindowClient) : Settled unit * list UiEffect :=
  if String.eqb action "open" || String.eqb action "open-trade" then
    match find (fun client => JsString.includes (wc_url client) "/") clientList with
    | Some client =>
        match get_prop data "tradeId" with
        | Rejected e => (Rejected e, [UClose])
        | Fulfilled tradeId =>
            match get_prop data "symbol" with
            | Rejected e => (Rejected e, [UClose])
            | Fulfilled symbol =>
                (Fulfilled tt,
                 [UClose; UPost client (notification_click tradeId symbol);
                  UFocus client])
            end
        end
    | None => (Fulfilled tt, [UClose; UOpenWindow "/"])
    end
  else (Fulfilled tt, [UClose]).

(** 30 minutes *)
Definition maxAge : Z := 30 * 60 * 1000.

(** [now - fetchedDate > maxAge], where [fetched request response] is
    what [new Date(response.headers.get('date')).getTime()] gives for
    the response stored under [request]: [None] when the header is
    absent or empty, and when it is no date (the time is then NaN and
    the comparison false). *)
Definition too_old (fetched : Request -> Response -> option Z) (now : Z)
    (request : Request) (response : Response) : bool :=
  match fetched request response with
  | Some fetchedDate => Z.ltb maxAge (now - fetchedDate)
  | None => false
  end.

(** The body of the loop of [cleanupOldCache]. *)
Definition sweep_request (fetched : Request -> Response -> option Z) (now : Z)
    (request : Request) : M unit :=
  let url := r_url request in
  (* Only clean Binance API calls *)
  if JsString.includes (u_hostname url) "binance.com" then
    response <- cache_match DYNAMIC_CACHE_NAME request ;;
    match response with
    | Some resp =>
        if too_old fetched now request resp
        then cache_delete DYNAMIC_CACHE_NAME request ;; ret tt
        else ret tt
    | None => ret tt
    end
  else ret tt.

(** [cleanupOldCache()], with [now] what [Date.now()] reads. *)
Definition cleanupOldCache (fetched : Request -> Response -> option Z) (now : Z)
  : M unit :=
  caches_open DYNAMIC_CACHE_NAME ;;
  requests <- cache_keys DYNAMIC_CACHE_NAME ;;
  forEach (sweep_request fetched now) requests.

End WithHost.
End SW.

(** ** Notions the properties are stated with *)

Module Props.
Import Platform.

(** The invariant of a Cache object: every key is a GET request and no
    two keys have the same URL. *)
Fixpoint wf_cache (c : Cache) : bool :=
  match c with
  | [] => true
  | (k, _) :: rest =>
      String.eqb (r_method k) "GET" &&
      negb (existsb (fun e => matches k (fst e)) rest) &&
      wf_cache rest
  end.

(** The id announced by an [OFFLINE_DATA_SAVED] message. *)
Definition saved_id (e : Effect) : option Z :=
  match e with
  | EPost _ (JObj [("type", JStr "OFFLINE_DATA_SAVED");
                   ("data", JObj [("id", JNum id); ("type", _)])]) => Some id
  | _ => None
  end.

Fixpoint saved_ids (trace : list Effect) : list Z :=
  match trace with
  | [] => []
  | e :: rest =>
      match saved_id e with
      | Some id => id :: saved_ids rest
      | None => saved_ids rest
      end
  end.

Fixpoint non_decreasing (l : list Z) : bool :=
  match l with
  | [] => true
  | a :: rest =>
      match rest with
      | [] => true
      | b :: _ => Z.leb a b && non_decreasing rest
      end
  end.

(** The [SAVE_OFFLINE_DATA] message the page sends. *)
Definition SAVE_OFFLINE_DATA (payload : json) : json :=
  JObj [("type", JStr "SAVE_OFFLINE_DATA"); ("data", payload)].

(** The world once fetch number [w_issued w] has been issued for [req]. *)
Definition issued (req : Request) (w : World) : World :=
  mkWorld (w_caches w) (w_clients w) (S (w_issued w))
          (w_trace w ++ [EFetch (w_issued w) req]) (w_detached w).

(** The world once the chain [t] has been started and left detached. *)
Definition detach (t : Task) (w : World) : World :=
  mkWorld (w_caches w) (w_clients w) (w_issued w) (w_trace w)
          (w_detached w ++ [t]).

(** The deletions an activation makes, for a test [stale] on names. *)
Definition cleanup (stale : string -> bool) (names : list string)
  : list (M unit) :=
  map (fun cacheName =>
         if stale cacheName then bind (caches_delete cacheName) (fun _ => ret tt)
         else ret tt)
      names.

(** What the clients are told of an enqueue. *)
Definition save_posts (timestamp : Z) (data : json) (cs : list Client) : list Effect :=
  match get_prop data "type" with
  | Fulfilled ty => map (fun c => EPost c (OFFLINE_DATA_SAVED timestamp ty)) cs
  | Rejected _ => []
  end.

(** The options [service-worker.js] shows a plain-text payload with. *)
Definition plain_text_options (text : string) : json :=
  JObj [("body", JStr text);
        ("icon", JStr "/icon-192.png");
        ("badge", JStr "/badge-72.png");
        ("vibrate", JArr [JNum 100; JNum 50; JNum 100]);
        ("data", JObj []);
        ("actions",
         JArr [JObj [("action", JStr "view-trade"); ("title", JStr "View Trade")];
               JObj [("action", JStr "dismiss"); ("title", JStr "Dismiss")]]);
        ("requireInteraction", JBool true)].

Section WithHost.
Context `{Host}.

(** A manifest fetch that does not let [addAll] store anything. *)
Definition failed (r : FetchResult) : bool :=
  match r with
  | NetFail => true
  | NetResp resp => negb (ok resp)
  end.

(** [req] has an entry in the cache [name]. *)
Definition stored (name : string) (req : Request) (w : World) : bool :=
  match cache_find req (entries name w) with
  | Some _ => true
  | None => false
  end.

(** The worker handles a sequence of [SAVE_OFFLINE_DATA] messages, each
    with the clock reading at which it arrives, and lets the detached
    work finish after each. *)
Definition save_all (saves : list (Z * json)) (w : World) : World :=
  fold_left
    (fun w s =>
       run_detached
         (snd (ServiceWorker.on_message (fst s) (SAVE_OFFLINE_DATA (snd s)) w)))
    saves w.

(** *** The drain as the specification describes it

    One pending entry is delivered on its own: if its stored body is
    JSON it is sent to the server, and the entry is synced when the
    server's answer is a success; a network error, a non-success
    status, or a body that cannot be decoded leave it failed.  [n] is
    the number of the fetch that carries the entry, when one is sent. *)
Record Delivery := mkDelivery {
  d_entry : Request * Response;
  d_sent : option (nat * Request);
  d_synced : bool
}.

Definition acknowledged (n : nat) (data : json) : bool :=
  match net n (ServiceWorker.sync_request data) with
  | NetResp r => ok r
  | NetFail => false
  end.

Fixpoint deliveries (n : nat) (pending : Cache) : list Delivery :=
  match pending with
  | [] => []
  | e :: rest =>
      match JSON_parse (body (snd e)) with
      | None => mkDelivery e None false :: deliveries n rest
      | Some data =>
          mkDelivery e (Some (n, ServiceWorker.sync_request data))
                     (acknowledged n data)
            :: deliveries (S n) rest
      end
  end.

Definition sent_event (d : Delivery) : list Effect :=
  match d_sent d with
  | Some (n, req) => [EFetch n req]
  | None => []
  end.

(** The entry [e] is one of those the deliveries [ds] synced. *)
Definition synced_in (ds : list Delivery) (e : Request * Response) : bool :=
  existsb (fun d => d_synced d && matches (fst (d_entry d)) (fst e)) ds.

Definition pending_trades (w : World) : Cache :=
  filter (fun e => ServiceWorker.is_trade (fst e)) (entries ServiceWorker.OFFLINE w).

(** The world once the deliveries [ds] have been made from [w]: the
    synced entries are gone from the queue, the requests sent are on
    the trace. *)
Definition after_deliveries (ds : list Delivery) (w : World) : World :=
  mkWorld (update_cache ServiceWorker.OFFLINE
                        (filter (fun e => negb (synced_in ds e))) (w_caches w))
          (w_clients w)
          (w_issued w + length (flat_map sent_event ds))
          (w_trace w ++ flat_map sent_event ds)
          (w_detached w).

(** Some fetch of the manifest [reqs], issued from number [n] on, fails. *)
Fixpoint any_failed (n : nat) (reqs : list Request) : bool :=
  match reqs with
  | [] => false
  | q :: rest => failed (net n q) || any_failed (S n) rest
  end.

(** The entry [saveOfflineData] writes. *)
Definition saved_entry (timestamp : Z) (data : json) : Request * Response :=
  (GET (ServiceWorker.offline_url timestamp), new_Response (JSON_stringify data)).

(** Every key of the queue was put there by a save at one of [stamps]. *)
Definition keyed_by (stamps : list Z) (w : World) : Prop :=
  Forall (fun k => exists ts, In ts stamps /\ k = GET (ServiceWorker.offline_url ts))
         (map fst (entries ServiceWorker.OFFLINE w)).

(** How the fetches of a manifest settle, issued from number [n] on,
    and the trace they leave. *)
Fixpoint settles (n : nat) (reqs : list Request) : list (Settled Response) :=
  match reqs with
  | [] => []
  | q :: rest => fetch_settle n q :: settles (S n) rest
  end.

Fixpoint fetch_events (n : nat) (reqs : list Request) : list Effect :=
  match reqs with
  | [] => []
  | q :: rest => EFetch n q :: fetch_events (S n) rest
  end.

(** The chain both install listeners give to [event.waitUntil]. *)
Definition install_chain (name : string) (reqs : list Request) : M unit :=
  bind (caches_open name) (fun _ => cache_addAll name reqs).

End WithHost.
End Props.

(** ** A concrete host for the examples *)

Module Demo.
Import Platform.

Definition origin : Origin := mkOrigin "https" "neotrade.example" "".

(** JSON for the payloads of the examples: integers, [null] and the
    empty object are decoded. *)
Definition parse (s : string) : option json :=
  if String.eqb s "null" then Some JNull
  else if String.eqb s "{}" then Some (JObj [])
  else match NilZero.int_of_string s with
       | Some d => Some (JNum (Z.of_int d))
       | None => None
       end.

Definition quoted (s : string) : string :=
  String (ascii_of_nat 34) (s ++ String (ascii_of_nat 34) "").

Fixpoint text (v : json) : string :=
  match v with
  | JUndefined | JNull => "null"
  | JBool true => "true"
  | JBool false => "false"
  | JNum z => JsString.of_Z z
  | JStr s => quoted s
  | JArr items => ("[" ++ String.concat "," (map text items) ++ "]")%string
  | JObj fields =>
      ("{" ++ String.concat ","
                (map (fun kv => (quoted (fst kv) ++ ":" ++ text (snd kv))%string)
                     fields)
           ++ "}")%string
  end.

Definition stringify (v : json) : option string :=
  match v with
  | JUndefined => None
  | _ => Some (text v)
  end.

Definition host (network : nat -> Request -> FetchResult) : Host :=
  Build_Host network parse stringify origin.

Definition offline : nat -> Request -> FetchResult := fun _ _ => NetFail.

Definition answer (st : nat) (text : string) : FetchResult :=
  NetResp (mkResponse st basic text).

Definition empty_world (clients : list Client) : World :=
  mkWorld [] clients 0 [] [].

(** A queued trade as the page stores it. *)
Definition trade (id : string) (payload : string) : Request * Response :=
  (GET (resolve origin ("/api/trades/" ++ id)), new_Response (Some payload)).

(** Five queued trades; the server acknowledges the first, third and
    fifth, answers 500 to the second, and the fourth does not get
    through. *)
Definition five_trades : Cache :=
  [trade "a" "1"; trade "b" "2"; trade "c" "3"; trade "d" "4"; trade "e" "5"].

Definition three_of_five : nat -> Request -> FetchResult :=
  fun n _ =>
    match n with
    | 0 | 2 | 4 => answer 200 "ok"
    | 1 => answer 500 "error"
    | _ => NetFail
    end.

Definition queue_world (q : Cache) (clients : list Client) : World :=
  mkWorld [(ServiceWorker.CACHE_NAME, []); (ServiceWorker.OFFLINE, q)]
          clients 0 [] [].

Definition ticker : Request :=
  GET (mkURL "https" "fapi.binance.com" "" "/fapi/v1/ticker/24hr" "").

Definition index_html : Request := GET (resolve origin "/index.html").

Definition post_trade : Request :=
  mkRequest "POST" (resolve origin "/api/trades")
            [("Content-Type", "application/json")] (Some "1").

Definition buy : json := JObj [("type", JStr "BUY")].
Definition sell : json := JObj [("type", JStr "SELL")].

End Demo.

(** * Properties *)

(** ** Substrings and decimal renderings *)

Module JsStringFacts.
Import JsString.
Local Open Scope string_scope.

Lemma lacks_app c s t : lacks c (s ++ t) = lacks c s && lacks c t.
Proof.
  induction s as [|a s IH]; simpl; [reflexivity|].
  rewrite IH. now rewrite andb_assoc.
Qed.

Lemma lacks_head c a s : lacks c (String a s) = true -> a <> c /\ lacks c s = true.
Proof.
  simpl. intros E. apply andb_true_iff in E as [E1 E2].
  split; [|exact E2]. intros ->. now rewrite Ascii.eqb_refl in E1.
Qed.

(** A pattern that starts with [c] is no prefix of a string that lacks [c]. *)
Lemma prefix_lacks c p s : lacks c s = true -> String.prefix (String c p) s = false.
Proof.
  destruct s as [|a s]; simpl; [reflexivity|].
  intros E. apply lacks_head in E as [Ha _].
  destruct (ascii_dec c a) as [->|]; [contradiction|reflexivity].
Qed.

(** Characters that cannot start the pattern are skipped. *)
Lemma includes_skip c p s t :
  lacks c s = true -> includes (s ++ t) (String c p) = includes t (String c p).
Proof.
  induction s as [|a s IH]; [reflexivity|].
  intros E. apply lacks_head in E as [Ha E].
  change (includes (String a s ++ t) (String c p))
    with (String.prefix (String c p) (String a (s ++ t)) || includes (s ++ t) (String c p)).
  rewrite (IH E). simpl.
  destruct (ascii_dec c a) as [->|]; [contradiction|reflexivity].
Qed.

Lemma includes_lacks c p s : lacks c s = true -> includes s (String c p) = false.
Proof.
  induction s as [|a s IH]; [reflexivity|].
  intros E. apply lacks_head in E as [Ha E].
  simpl. rewrite (IH E).
  destruct (ascii_dec c a) as [->|]; [contradiction|reflexivity].
Qed.

(** The decimal rendering of an integer holds digits and at most a
    sign, so it lacks every other character. *)
Lemma uint_lacks c d :
  lacks c "0123456789" = true -> lacks c (NilEmpty.string_of_uint d) = true.
Proof.
  intros Hc. simpl in Hc.
  repeat (apply andb_true_iff in Hc as [?E Hc]).
  induction d; simpl; rewrite ?IHd, ?andb_true_r; assumption || reflexivity.
Qed.

Lemma of_Z_lacks c z : lacks c "-0123456789" = true -> lacks c (of_Z z) = true.
Proof.
  intros Hc. cbn [lacks] in Hc. apply andb_true_iff in Hc as [Hm Hc].
  assert (E0 : lacks c "0" = true).
  { cbn [lacks] in *. apply andb_true_iff in Hc as [-> _]. reflexivity. }
  assert (U : forall d, lacks c (NilZero.string_of_uint d) = true).
  { intros d. unfold NilZero.string_of_uint.
    destruct d; [exact E0 | apply uint_lacks; exact Hc ..]. }
  unfold of_Z, NilZero.string_of_int.
  destruct (Z.to_int z) as [d|d]; cbn [lacks]; rewrite ?Hm, U; reflexivity.
Qed.

Lemma of_Z_inj z z' : of_Z z = of_Z z' -> z = z'.
Proof.
  unfold of_Z. intros E. apply DecimalZ.to_int_inj.
  assert (N : forall z, Z.to_int z <> Decimal.Pos Decimal.Nil /\
                        Z.to_int z <> Decimal.Neg Decimal.Nil).
  { intros [|p|p]; simpl; split; try discriminate;
      intros [= E']; now apply (DecimalPos.Unsigned.to_uint_nonnil p). }
  assert (S : forall z, NilZero.int_of_string (NilZero.string_of_int (Z.to_int z))
                        = Some (Z.to_int z)).
  { intros x. apply NilZero.isi; apply N. }
  generalize (S z). rewrite E, S. congruence.
Qed.

Lemma includes_cons a s pat :
  includes (String a s) pat = String.prefix pat (String a s) || includes s pat.
Proof. reflexivity. Qed.

Lemma prefix_cons_eq a p s :
  String.prefix (String a p) (String a s) = String.prefix p s.
Proof. cbn [String.prefix]. destruct (ascii_dec a a); [reflexivity|congruence]. Qed.

Lemma prefix_cons_neq a b p s :
  a <> b -> String.prefix (String a p) (String b s) = false.
Proof. intros N. cbn [String.prefix]. destruct (ascii_dec a b); [contradiction|reflexivity]. Qed.

Ltac prefix_steps :=
  repeat first [ rewrite prefix_cons_eq
               | rewrite prefix_cons_neq by (assumption || discriminate) ].

(** The host part of a URL cannot supply the [api/trades] that would
    have to follow the second slash of [://]. *)
Lemma host_cannot_match h rest :
  lacks "/" h = true ->
  String.prefix "api/trades" rest = false ->
  String.prefix "pi/trades" rest = false ->
  String.prefix "i/trades" rest = false ->
  String.prefix "/trades" rest = false ->
  String.prefix "api/trades" (h ++ rest) = false.
Proof.
  intros L P0 P1 P2 P3.
  destruct h as [|c1 h]; [exact P0|].
  apply lacks_head in L as [_ L]. cbn [append].
  destruct (ascii_dec "a" c1) as [<-|]; [|now prefix_steps]. prefix_steps.
  destruct h as [|c2 h]; [exact P1|].
  apply lacks_head in L as [_ L]. cbn [append].
  destruct (ascii_dec "p" c2) as [<-|]; [|now prefix_steps]. prefix_steps.
  destruct h as [|c3 h]; [exact P2|].
  apply lacks_head in L as [_ L]. cbn [append].
  destruct (ascii_dec "i" c3) as [<-|]; [|now prefix_steps]. prefix_steps.
  destruct h as [|c4 h]; [exact P3|].
  apply lacks_head in L as [N _]. cbn [append].
  apply prefix_cons_neq. congruence.
Qed.

Lemma offline_path_not_trade d :
  lacks "/" d = true -> lacks "a" d = true ->
  includes ("/api/offline/" ++ d) "/api/trades" = false.
Proof.
  intros Ls La. cbn [append].
  rewrite !includes_cons. prefix_steps.
  rewrite (prefix_lacks "a" _ d La), (includes_lacks "/" _ d Ls). reflexivity.
Qed.

(** No URL that [saveOfflineData] builds is one the drain selects. *)
Lemma offline_url_not_trade (o : Origin) (ts : Z) :
  wf_origin o ->
  includes (href (resolve o ("/api/offline/" ++ of_Z ts))) "/api/trades" = false.
Proof.
  intros (Ls & Lh & Lp).
  unfold href, resolve; cbn [u_scheme u_hostname u_port u_pathname u_search].
  assert (Ld : lacks "/" (of_Z ts) = true) by now apply of_Z_lacks.
  assert (La : lacks "a" (of_Z ts) = true) by now apply of_Z_lacks.
  assert (E : (("/api/offline/" ++ of_Z ts) ++ "") = "/api/offline/" ++ (of_Z ts ++ "")).
  { reflexivity. }
  rewrite E. clear E.
  assert (Ld' : lacks "/" (of_Z ts ++ "") = true) by now rewrite lacks_app, Ld.
  assert (La' : lacks "a" (of_Z ts ++ "") = true) by now rewrite lacks_app, La.
  generalize dependent (of_Z ts ++ ""). intros d Ld' La'.
  pose proof (offline_path_not_trade d Ld' La') as Epath.
  set (path := "/api/offline/" ++ d) in *.
  assert (Etail : includes (port_part (o_port o) ++ path) "/api/trades" = false).
  { unfold port_part. destruct (o_port o) as [|a p] eqn:Ep; [exact Epath|].
    change (":" ++ String a p) with (String ":" (String a p)).
    rewrite includes_skip; [exact Epath|].
    cbn [lacks] in *. rewrite Lp. reflexivity. }
  rewrite includes_skip by exact Ls.
  cbn [append]. rewrite !includes_cons. prefix_steps. cbn [orb].
  rewrite includes_skip by exact Lh. rewrite Etail, orb_false_r.
  apply host_cannot_match; [exact Lh|..]; unfold port_part, path;
    (destruct (o_port o); cbn [append]; now prefix_steps).
Qed.

End JsStringFacts.

(** ** Caches *)

Module PlatformFacts.
Import Platform Props.
Local Open Scope js_scope.

(** *** Lists *)

Lemma filter_map_swap {A B} (f : B -> bool) (g : A -> B) (l : list A) :
  filter f (map g l) = map g (filter (fun x => f (g x)) l).
Proof.
  induction l as [|a l IH]; cbn; [reflexivity|].
  destruct (f (g a)); cbn; now rewrite IH.
Qed.

Lemma filter_filter {A} (f g : A -> bool) (l : list A) :
  filter g (filter f l) = filter (fun x => f x && g x) l.
Proof.
  induction l as [|a l IH]; cbn; [reflexivity|].
  destruct (f a); cbn; [destruct (g a)|]; now rewrite IH.
Qed.

Lemma find_filter_keep {A} (p q : A -> bool) (l : list A) :
  (forall x, In x l -> p x = true -> q x = true) ->
  find p (filter q l) = find p l.
Proof.
  induction l as [|a l IH]; cbn; intros K; [reflexivity|].
  destruct (q a) eqn:Q; cbn.
  - destruct (p a); [reflexivity|]. apply IH. intros; apply K; auto.
  - destruct (p a) eqn:P.
    + rewrite (K a) in Q; auto. discriminate.
    + apply IH. intros; apply K; auto.
Qed.

(** *** CacheStorage *)

Lemma get_cache_update name f cs :
  get_cache name (update_cache name f cs) = option_map f (get_cache name cs).
Proof.
  induction cs as [|[n c] cs IH]; cbn; [reflexivity|].
  destruct (String.eqb n name) eqn:E; cbn; rewrite E; [reflexivity|exact IH].
Qed.

Lemma get_cache_update_other name name' f cs :
  name' <> name ->
  get_cache name' (update_cache name f cs) = get_cache name' cs.
Proof.
  intros N. induction cs as [|[n c] cs IH]; cbn; [reflexivity|].
  destruct (String.eqb n name) eqn:E; cbn.
  - apply String.eqb_eq in E; subst n.
    destruct (String.eqb name name') eqn:E'; [|reflexivity].
    apply String.eqb_eq in E'. congruence.
  - now rewrite IH.
Qed.

Lemma update_cache_compose name f g cs :
  update_cache name g (update_cache name f cs)
  = update_cache name (fun c => g (f c)) cs.
Proof.
  induction cs as [|[n c] cs IH]; cbn; [reflexivity|].
  destruct (String.eqb n name) eqn:E; cbn; rewrite E; [reflexivity|].
  now rewrite IH.
Qed.

Lemma update_cache_ext name f g cs :
  (forall c, f c = g c) -> update_cache name f cs = update_cache name g cs.
Proof.
  intros E. induction cs as [|[n c] cs IH]; cbn; [reflexivity|].
  rewrite E, IH. reflexivity.
Qed.

Lemma get_cache_app name cs cs' :
  get_cache name (cs ++ cs')
  = match get_cache name cs with
    | Some c => Some c
    | None => get_cache name cs'
    end.
Proof.
  induction cs as [|[n c] cs IH]; cbn; [reflexivity|].
  destruct (String.eqb n name); [reflexivity|exact IH].
Qed.

Lemma entries_set_caches name cs w :
  entries name (set_caches cs w)
  = match get_cache name cs with Some c => c | None => [] end.
Proof. reflexivity. Qed.

(** Opening a cache changes the entries of no cache. *)
Lemma entries_open name name' w :
  entries name' (snd (caches_open name w)) = entries name' w.
Proof.
  unfold caches_open, has_cache. cbn [snd].
  destruct (get_cache name (w_caches w)) eqn:E; [reflexivity|].
  rewrite entries_set_caches, get_cache_app. unfold entries.
  destruct (get_cache name' (w_caches w)) eqn:E'; [reflexivity|].
  cbn. destruct (String.eqb name name'); reflexivity.
Qed.

Lemma entries_update name f w :
  f [] = [] ->
  entries name (set_caches (update_cache name f (w_caches w)) w)
  = f (entries name w).
Proof.
  intros F. rewrite entries_set_caches, get_cache_update. unfold entries.
  destruct (get_cache name (w_caches w)); cbn; congruence.
Qed.

Lemma entries_update_open name f w :
  has_cache name (w_caches w) = true ->
  entries name (set_caches (update_cache name f (w_caches w)) w)
  = f (entries name w).
Proof.
  unfold has_cache. intros F.
  rewrite entries_set_caches, get_cache_update. unfold entries.
  destruct (get_cache name (w_caches w)); cbn; congruence.
Qed.

Lemma entries_update_other name name' f w :
  name' <> name ->
  entries name' (set_caches (update_cache name f (w_caches w)) w)
  = entries name' w.
Proof.
  intros N. rewrite entries_set_caches, get_cache_update_other by exact N.
  reflexivity.
Qed.

Lemma has_cache_open name w :
  has_cache name (w_caches (snd (caches_open name w))) = true.
Proof.
  unfold caches_open. cbn [snd].
  destruct (has_cache name (w_caches w)) eqn:E; [exact E|].
  unfold has_cache in *. cbn. rewrite get_cache_app.
  destruct (get_cache name (w_caches w)); [discriminate|].
  cbn. now rewrite String.eqb_refl.
Qed.

(** *** Cache keys *)

Lemma matches_href q k :
  matches q k = true -> r_method q = "GET" /\ href (r_url q) = href (r_url k).
Proof.
  unfold matches. intros E. apply andb_true_iff in E as [E1 E2].
  split; now apply String.eqb_eq.
Qed.

Lemma matches_self k : r_method k = "GET" -> matches k k = true.
Proof.
  intros G. unfold matches. rewrite G, !String.eqb_refl. reflexivity.
Qed.

(** Two GET requests that do not match each other match no common key. *)
Lemma matches_disjoint k k' x :
  r_method k = "GET" -> matches k k' = false ->
  matches k' x = true -> matches k x = false.
Proof.
  unfold matches. intros G N E. rewrite G in *. cbn in *.
  apply andb_true_iff in E as [_ E]. apply String.eqb_eq in E.
  now rewrite <- E.
Qed.

Lemma cache_find_without_same req c : cache_find req (without req c) = None.
Proof.
  unfold cache_find, without.
  induction c as [|e c IH]; cbn; [reflexivity|].
  destruct (matches req (fst e)) eqn:E; cbn; [exact IH|].
  rewrite E. exact IH.
Qed.

Lemma cache_find_without_other k k' c :
  r_method k = "GET" -> matches k k' = false ->
  cache_find k' (without k c) = cache_find k' c.
Proof.
  intros G N. unfold cache_find, without.
  rewrite find_filter_keep; [reflexivity|].
  intros x _ E. now rewrite (matches_disjoint k k' (fst x)).
Qed.

Lemma cache_find_app req c c' :
  cache_find req (c ++ c')
  = match cache_find req c with
    | Some r => Some r
    | None => cache_find req c'
    end.
Proof.
  unfold cache_find. induction c as [|e c IH]; cbn; [reflexivity|].
  destruct (matches req (fst e)); [reflexivity|exact IH].
Qed.

(** In a well-formed cache every key finds its own response. *)
Lemma wf_cache_find c e :
  wf_cache c = true -> In e c -> cache_find (fst e) c = Some (snd e).
Proof.
  induction c as [|[k r] c IH]; cbn; [contradiction|].
  intros W [<-|I].
  - apply andb_true_iff in W as [W _]. apply andb_true_iff in W as [G _].
    apply String.eqb_eq in G. unfold cache_find. cbn.
    now rewrite (matches_self k G).
  - apply andb_true_iff in W as [W Wc]. apply andb_true_iff in W as [G N].
    apply String.eqb_eq in G. apply negb_true_iff in N.
    unfold cache_find. cbn.
    destruct (matches (fst e) k) eqn:E.
    + exfalso. apply matches_href in E as [Ge Eh].
      assert (X : existsb (fun e0 => matches k (fst e0)) c = true).
      { apply existsb_exists. exists e. split; [exact I|].
        unfold matches. rewrite G, Eh, !String.eqb_refl. reflexivity. }
      congruence.
    + apply (IH Wc I).
Qed.

(** Deletions of two keys commute: the order in which concurrent
    deliveries of the drain delete their entries does not matter. *)
Lemma without_comm k k' c : without k (without k' c) = without k' (without k c).
Proof.
  unfold without. rewrite !filter_filter. apply filter_ext. intros e.
  apply andb_comm.
Qed.

Lemma wf_cache_filter p c : wf_cache c = true -> wf_cache (filter p c) = true.
Proof.
  induction c as [|[k r] c IH]; cbn; [reflexivity|].
  intros W. apply andb_true_iff in W as [W Wc]. apply andb_true_iff in W as [G N].
  destruct (p (k, r)); cbn; [|now apply IH].
  rewrite G, (IH Wc), andb_true_r. cbn.
  apply negb_true_iff. apply negb_true_iff in N.
  apply not_true_is_false. intros X. apply existsb_exists in X as (x & Ix & Mx).
  apply filter_In in Ix as [Ix _].
  assert (Y : existsb (fun e0 => matches k (fst e0)) c = true).
  { apply existsb_exists. now exists x. }
  congruence.
Qed.

Lemma wf_cache_snoc c k r :
  wf_cache c = true -> r_method k = "GET" ->
  (forall e, In e c -> matches (fst e) k = false) ->
  wf_cache (c ++ [(k, r)]) = true.
Proof.
  intros W G N. induction c as [|[k0 r0] c IH]; cbn [app wf_cache].
  - rewrite G. reflexivity.
  - cbn [wf_cache] in W.
    apply andb_true_iff in W as [W Wc]. apply andb_true_iff in W as [G0 N0].
    rewrite G0, (IH Wc) by (intros e I; apply N; now right).
    rewrite andb_true_r. cbn [andb]. apply negb_true_iff.
    rewrite existsb_app. apply negb_true_iff in N0. rewrite N0.
    cbn [existsb fst orb].
    pose proof (N (k0, r0) (or_introl eq_refl)) as Nk. cbn [fst] in Nk.
    assert (M : matches k0 k = false).
    { exact Nk. }
    now rewrite M.
Qed.

(** [cache.put] keeps the invariant of the cache. *)
Lemma wf_cache_put c k r :
  wf_cache c = true -> r_method k = "GET" ->
  wf_cache (without k c ++ [(k, r)]) = true.
Proof.
  intros W G. apply wf_cache_snoc; [now apply wf_cache_filter|exact G|].
  intros e I. apply filter_In in I as [I Ne]. apply negb_true_iff in Ne.
  assert (Ge : r_method (fst e) = "GET").
  { clear Ne. induction c as [|[k0 r0] c IH]; [contradiction|].
    cbn [wf_cache] in W.
    apply andb_true_iff in W as [W Wc]. apply andb_true_iff in W as [G0 _].
    destruct I as [<-|I]; [now apply String.eqb_eq in G0|now apply IH]. }
  unfold matches in *. rewrite G, String.eqb_refl in Ne. cbn [andb] in Ne.
  rewrite Ge, String.eqb_refl. cbn [andb]. now rewrite String.eqb_sym.
Qed.

End PlatformFacts.

(** ** The queue drain *)

Module DrainFacts.
Import Platform Props ServiceWorker PlatformFacts.
Local Open Scope js_scope.

Section WithHost.
Context `{Host}.

(** What the detached broadcast does when it runs. *)
Lemma forEach_post msg cs w :
  forEach (fun c => postMessage c msg) cs w
  = (Fulfilled tt,
     mkWorld (w_caches w) (w_clients w) (w_issued w)
             (w_trace w ++ map (fun c => EPost c msg) cs) (w_detached w)).
Proof.
  revert w. induction cs as [|c cs IH]; intros w; cbn.
  - rewrite app_nil_r. now destruct w.
  - unfold bind, postMessage, log. rewrite IH. cbn. now rewrite <- app_assoc.
Qed.

(** One entry's delivery, case by case. *)
Lemma sync_one_run (request : Request) (w : World) :
  sync_one request w =
  match cache_find request (entries OFFLINE w) with
  | None => (Rejected (TypeError "Cannot read properties of undefined: json"), w)
  | Some resp =>
      match JSON_parse (body resp) with
      | None => (Rejected (SyntaxError "Unexpected token"), w)
      | Some data =>
          let n := w_issued w in
          let sent := w_trace w ++ [EFetch n (sync_request data)] in
          match net n (sync_request data) with
          | NetFail =>
              (Rejected (TypeError "Failed to fetch"),
               mkWorld (w_caches w) (w_clients w) (S n) sent (w_detached w))
          | NetResp r =>
              if ok r then
                (Fulfilled (JObj [("success", JBool true); ("data", data)]),
                 mkWorld (update_cache OFFLINE (without request) (w_caches w))
                         (w_clients w) (S n) sent (w_detached w))
              else
                (Rejected (Error "Sync failed"),
                 mkWorld (w_caches w) (w_clients w) (S n) sent (w_detached w))
          end
      end
  end.
Proof.
  unfold sync_one, bind, cache_match, lift, response_json, fetch, bind,
    fetch_issue, fetch_settle, lift.
  destruct (cache_find request (entries OFFLINE w)) as [resp|]; [|reflexivity].
  destruct (JSON_parse (body resp)) as [data|]; [|reflexivity].
  cbn. destruct (net (w_issued w) (sync_request data)) as [|r]; [reflexivity|].
  destruct (ok r); reflexivity.
Qed.

Lemma update_cache_id name cs :
  update_cache name (filter (fun _ => true)) cs = cs.
Proof.
  induction cs as [|[n c] cs IH]; cbn; [reflexivity|].
  destruct (String.eqb n name).
  - f_equal. f_equal. induction c; cbn; congruence.
  - now rewrite IH.
Qed.

(** The batch: every pending entry is delivered, whatever became of the
    entries before it. *)
Lemma batch_run (pending : Cache) : forall w,
  wf_cache pending = true ->
  (forall e, In e pending ->
             cache_find (fst e) (entries OFFLINE w) = Some (snd e)) ->
  let ds := deliveries (w_issued w) pending in
  exists results,
    allSettled (map sync_one (map fst pending)) w
      = (Fulfilled results, after_deliveries ds w) /\
    map is_fulfilled results = map d_synced ds.
Proof.
  induction pending as [|[k resp] pending IH]; intros w W F; cbv zeta; cbn [deliveries snd].
  - exists []. split; [|reflexivity]. cbn. unfold ret, after_deliveries. cbn.
    rewrite update_cache_id, Nat.add_0_r, app_nil_r. now destruct w.
  - cbn [wf_cache] in W.
    apply andb_true_iff in W as [W Wp]. apply andb_true_iff in W as [G N].
    apply String.eqb_eq in G. apply negb_true_iff in N.
    assert (Nk : forall e, In e pending -> matches k (fst e) = false).
    { intros e I. apply not_true_is_false. intros X.
      assert (Y : existsb (fun e0 => matches k (fst e0)) pending = true).
      { apply existsb_exists. now exists e. }
      congruence. }
    cbn [map fst allSettled]. rewrite sync_one_run.
    pose proof (F (k, resp) (or_introl eq_refl)) as Fk. cbn [fst snd] in Fk.
    rewrite Fk.
    destruct (JSON_parse (body resp)) as [data|] eqn:P.
    + cbv zeta. unfold acknowledged.
      destruct (net (w_issued w) (sync_request data)) as [|r] eqn:Nt;
        [|destruct (ok r) eqn:Ok].
      * (* the network failed *)
        set (w1 := mkWorld _ _ _ _ _).
        destruct (IH w1 Wp) as (rs & E & Sy).
        { intros e I. exact (F e (or_intror I)). }
        rewrite E. exists (Rejected (TypeError "Failed to fetch") :: rs).
        split; [|cbn; rewrite Sy, ?Nt, ?Ok; reflexivity]. f_equal.
        unfold after_deliveries, w1. cbn.
        rewrite <- app_assoc. cbn. f_equal; lia.
      * (* acknowledged *)
        set (w1 := mkWorld _ _ _ _ _).
        destruct (IH w1 Wp) as (rs & E & Sy).
        { intros e I. pose proof (F e (or_intror I)) as Fe.
          unfold w1, entries in *. cbn [w_caches]. rewrite get_cache_update.
          destruct (get_cache OFFLINE (w_caches w)) as [c|]; cbn [option_map];
            [|discriminate Fe].
          rewrite cache_find_without_other; [exact Fe|exact G|exact (Nk e I)]. }
        rewrite E. eexists (Fulfilled _ :: rs).
        split; [|cbn; rewrite Sy, ?Nt, ?Ok; reflexivity]. f_equal.
        unfold after_deliveries, w1. cbn.
        rewrite <- app_assoc. cbn. f_equal; try lia.
        rewrite update_cache_compose. apply update_cache_ext. intros c.
        unfold without. rewrite filter_filter. apply filter_ext. intros e.
        unfold synced_in. cbn. now rewrite negb_orb.
      * (* refused by the server *)
        set (w1 := mkWorld _ _ _ _ _).
        destruct (IH w1 Wp) as (rs & E & Sy).
        { intros e I. exact (F e (or_intror I)). }
        rewrite E. exists (Rejected (Error "Sync failed") :: rs).
        split; [|cbn; rewrite Sy, ?Nt, ?Ok; reflexivity]. f_equal.
        unfold after_deliveries, w1. cbn.
        rewrite <- app_assoc. cbn. f_equal; lia.
    + (* the stored body is not JSON: nothing is sent *)
      destruct (IH w Wp) as (rs & E & Sy).
      { intros e I. exact (F e (or_intror I)). }
      rewrite E. exists (Rejected (SyntaxError "Unexpected token") :: rs).
      split; [|cbn; rewrite Sy, ?Nt, ?Ok; reflexivity]. reflexivity.
Qed.


Lemma count_by_map {A B} (f : A -> bool) (g : B -> bool) l l' :
  map f l = map g l' -> length (filter f l) = length (filter g l').
Proof.
  revert l'. induction l as [|a l IH]; intros [|b l']; cbn; try discriminate.
  - reflexivity.
  - intros [= E1 E2]. rewrite E1. destruct (g b); cbn; now rewrite (IH l' E2).
Qed.

(** The whole drain, from a queue whose pending keys each find their
    own entry. *)
Lemma drain_run (w : World) :
  wf_cache (pending_trades w) = true ->
  (forall e, In e (pending_trades w) ->
             cache_find (fst e) (entries OFFLINE w) = Some (snd e)) ->
  let ds := deliveries (w_issued w) (pending_trades w) in
  let summary :=
    SYNC_COMPLETED (length (filter d_synced ds)) (length (pending_trades w)) in
  syncOfflineTrades w
  = (Fulfilled tt,
     snd (spawn (TBroadcast summary)
                (after_deliveries ds (snd (caches_open OFFLINE w))))).
Proof.
  intros W F ds summary.
  set (w0 := snd (caches_open OFFLINE w)).
  assert (E0 : entries OFFLINE w0 = entries OFFLINE w) by apply entries_open.
  assert (I0 : w_issued w0 = w_issued w).
  { unfold w0, caches_open. cbn. now destruct (has_cache OFFLINE (w_caches w)). }
  destruct (batch_run (pending_trades w) w0 W) as (rs & E & Sy).
  { intros e I. rewrite E0. now apply F. }
  rewrite I0 in E, Sy. fold ds in E, Sy.
  unfold syncOfflineTrades, catch, bind.
  change (caches_open OFFLINE w) with (Fulfilled tt, w0).
  unfold cache_keys at 1. rewrite E0.
  rewrite filter_map_swap. fold (pending_trades w).
  rewrite E. unfold spawn. cbn [snd].
  rewrite (count_by_map _ _ _ _ Sy), length_map. reflexivity.
Qed.

(** Which requests are sent does not depend on what the network
    answers. *)
Lemma sent_whatever_the_replies (network' : nat -> Request -> FetchResult)
    pending : forall n,
  map d_sent (deliveries n pending)
  = map d_sent
        (deliveries (H := Build_Host network' JSON_parse JSON_stringify location)
                    n pending).
Proof.
  induction pending as [|e p IH]; intros n; cbn [deliveries]; [reflexivity|].
  cbn [JSON_parse].
  destruct (JSON_parse (body (snd e))); cbn [map d_sent]; now rewrite IH.
Qed.

Lemma deliveries_entries pending : forall n,
  map d_entry (deliveries n pending) = pending.
Proof.
  induction pending as [|e p IH]; intros n; cbn; [reflexivity|].
  destruct (JSON_parse (body (snd e))); cbn; now rewrite IH.
Qed.

Lemma synced_in_cons d ds x :
  synced_in (d :: ds) x
  = (d_synced d && matches (fst (d_entry d)) (fst x)) || synced_in ds x.
Proof. reflexivity. Qed.

Lemma synced_in_none pending x : forall n,
  (forall e, In e pending -> matches (fst e) (fst x) = false) ->
  synced_in (deliveries n pending) x = false.
Proof.
  induction pending as [|e p IH]; intros n N; cbn [deliveries]; [reflexivity|].
  assert (Ne : matches (fst e) (fst x) = false) by (apply N; now left).
  assert (Np : forall e', In e' p -> matches (fst e') (fst x) = false)
    by (intros; apply N; now right).
  destruct (JSON_parse (body (snd e))); unfold synced_in;
    cbn [existsb d_synced d_entry]; rewrite Ne, ?andb_false_r; cbn [orb andb];
    apply (IH _ Np).
Qed.

(** Among well-formed pending entries, a delivery decides for its own
    entry and for no other. *)
Lemma synced_in_own pending : forall n d,
  wf_cache pending = true ->
  In d (deliveries n pending) ->
  synced_in (deliveries n pending) (d_entry d) = d_synced d.
Proof.
  induction pending as [|[k r] p IH]; intros n d W I; [contradiction|].
  cbn [wf_cache] in W.
  apply andb_true_iff in W as [W Wp]. apply andb_true_iff in W as [G N].
  apply String.eqb_eq in G. apply negb_true_iff in N.
  assert (Nk : forall e, In e p -> matches k (fst e) = false).
  { intros e Ie. apply not_true_is_false. intros X.
    assert (Y : existsb (fun e0 => matches k (fst e0)) p = true).
    { apply existsb_exists. now exists e. }
    congruence. }
  assert (Back : forall e, In e p -> matches (fst e) k = false).
  { intros e Ie. specialize (Nk e Ie). unfold matches in *.
    rewrite G, String.eqb_refl in Nk. cbn [andb] in Nk.
    destruct (String.eqb (href (r_url (fst e))) (href (r_url k))) eqn:X;
      [|apply andb_false_r].
    apply String.eqb_eq in X. rewrite X, String.eqb_refl in Nk. discriminate. }
  assert (Tail : forall m d', In d' (deliveries m p) ->
                 synced_in (deliveries m p) (d_entry d') = d_synced d' /\
                 matches k (fst (d_entry d')) = false).
  { intros m d' I'. split; [now apply IH|]. apply Nk.
    rewrite <- (deliveries_entries p m). now apply in_map. }
  assert (Head : forall m, synced_in (deliveries m p) (k, r) = false).
  { intros m. apply synced_in_none. exact Back. }
  cbn [deliveries snd] in *.
  destruct (JSON_parse (body r)) as [data|]; destruct I as [<-|I];
    rewrite synced_in_cons; cbn [d_synced d_entry fst].
  - now rewrite (matches_self k G), andb_true_r, Head, orb_false_r.
  - destruct (Tail _ _ I) as [T1 T2]. now rewrite T2, andb_false_r, T1.
  - now rewrite Head.
  - destruct (Tail _ _ I) as [T1 T2]. now rewrite T1.
Qed.

End WithHost.
End DrainFacts.

Module DrainClaims.
Import Platform Props ServiceWorker PlatformFacts DrainFacts.
Local Open Scope js_scope.

Section WithHost.
Context `{Host}.

Lemma run_detached_one t w :
  w_detached w = [t] ->
  run_detached w
  = snd (run_task t (mkWorld (w_caches w) (w_clients w) (w_issued w) (w_trace w) [])).
Proof. intros E. unfold run_detached. rewrite E. reflexivity. Qed.

Lemma open_keeps name w :
  let w0 := snd (caches_open name w) in
  w_clients w0 = w_clients w /\ w_issued w0 = w_issued w /\
  w_trace w0 = w_trace w /\ w_detached w0 = w_detached w.
Proof.
  unfold caches_open. cbn [snd].
  destruct (has_cache name (w_caches w)); cbn; auto.
Qed.

Lemma entries_mk name cs cl i t d :
  entries name (mkWorld cs cl i t d)
  = match get_cache name cs with Some c => c | None => [] end.
Proof. reflexivity. Qed.

(** The drain followed by its detached broadcast. *)
Lemma drain_then_broadcast (w : World) :
  wf_cache (pending_trades w) = true ->
  (forall e, In e (pending_trades w) ->
             cache_find (fst e) (entries OFFLINE w) = Some (snd e)) ->
  w_detached w = [] ->
  let ds := deliveries (w_issued w) (pending_trades w) in
  let summary :=
    SYNC_COMPLETED (length (filter d_synced ds)) (length (pending_trades w)) in
  let r := syncOfflineTrades w in
  let w' := run_detached (snd r) in
  fst r = Fulfilled tt /\
  w_issued w' = w_issued w + length (flat_map sent_event ds) /\
  w_trace w' = w_trace w ++ flat_map sent_event ds
                 ++ map (fun c => EPost c summary) (w_clients w) /\
  entries OFFLINE w' = filter (fun e => negb (synced_in ds e)) (entries OFFLINE w).
Proof.
  intros W F D ds summary r w'. subst r w'.
  rewrite (drain_run w W F). fold ds. fold summary. cbn [fst snd].
  destruct (open_keeps OFFLINE w) as (Kc & Ki & Kt & Kd).
  cbv zeta in Kc, Ki, Kt, Kd.
  rewrite run_detached_one with (t := TBroadcast summary).
  2:{ unfold spawn, after_deliveries. cbn [snd w_detached]. now rewrite Kd, D. }
  unfold spawn, after_deliveries. cbn [snd w_caches w_clients w_issued w_trace].
  cbn [run_task]. unfold bind, clients_matchAll. cbn [w_clients].
  rewrite forEach_post. cbn [snd w_caches w_clients w_issued w_trace].
  rewrite Kc, Ki, Kt. split; [reflexivity|]. split; [reflexivity|].
  split; [now rewrite app_assoc|].
  rewrite entries_mk, get_cache_update.
  pose proof (entries_open OFFLINE OFFLINE w) as E. unfold entries in E.
  destruct (get_cache OFFLINE (w_caches (snd (caches_open OFFLINE w)))) as [c|];
    cbn [option_map]; unfold entries; rewrite <- E; reflexivity.
Qed.

(** C1. During a queue drain every pending entry is delivered on its
    own: the request of each decodable pending entry is sent whatever
    the other entries' round trips came to, the entries whose delivery
    the server acknowledged are deleted from the queue and the failed
    ones remain, and once the batch is over each connected client is
    posted exactly one summary [SYNC_COMPLETED {synced, total}]. *)
Theorem C1_drain_isolates_failures (w : World) :
  wf_cache (entries OFFLINE w) = true ->
  w_detached w = [] ->
  let pending := pending_trades w in
  let ds := deliveries (w_issued w) pending in
  let r := syncOfflineTrades w in
  let w' := run_detached (snd r) in
  fst r = Fulfilled tt /\
  map d_entry ds = pending /\
  w_trace w' = w_trace w ++ flat_map sent_event ds
                 ++ map (fun c => EPost c (SYNC_COMPLETED
                                             (length (filter d_synced ds))
                                             (length pending)))
                        (w_clients w) /\
  entries OFFLINE w' = filter (fun e => negb (synced_in ds e)) (entries OFFLINE w) /\
  Forall (fun d => In (d_entry d) (entries OFFLINE w') <-> d_synced d = false) ds.
Proof.
  intros W D pending ds r w'.
  assert (Wp : wf_cache pending = true) by now apply wf_cache_filter.
  assert (F : forall e, In e pending ->
                        cache_find (fst e) (entries OFFLINE w) = Some (snd e)).
  { intros e I. apply wf_cache_find; [exact W|].
    now apply filter_In in I as [I _]. }
  destruct (drain_then_broadcast w Wp F D) as (R & _ & T & Q).
  fold pending ds r w' in R, T, Q.
  split; [exact R|]. split; [apply deliveries_entries|].
  split; [exact T|]. split; [exact Q|].
  apply Forall_forall. intros d I. rewrite Q, filter_In.
  pose proof (synced_in_own pending (w_issued w) d Wp I) as Own.
  fold ds in Own. rewrite Own.
  assert (Ie : In (d_entry d) (entries OFFLINE w)).
  { assert (Ip : In (d_entry d) pending).
    { rewrite <- (deliveries_entries pending (w_issued w)). now apply in_map. }
    now apply filter_In in Ip as [Ip _]. }
  split.
  - intros [_ N]. now apply negb_true_iff in N.
  - intros N. split; [exact Ie|]. now apply negb_true_iff.
Qed.

End WithHost.

(** C1 on the specification's example: five queued trades, three
    acknowledged, one refused with status 500, one lost to the network. *)
Lemma C1_three_of_five :
  let H := Demo.host Demo.three_of_five in
  let w := Demo.queue_world Demo.five_trades [7; 8] in
  let w' := run_detached (snd (syncOfflineTrades w)) in
  entries OFFLINE w' = [Demo.trade "b" "2"; Demo.trade "d" "4"] /\
  filter (fun e => match e with EPost _ _ => true | _ => false end) (w_trace w')
  = [EPost 7 (SYNC_COMPLETED 3 5); EPost 8 (SYNC_COMPLETED 3 5)].
Proof.
  intros H w w'.
  destruct (C1_drain_isolates_failures (H := H) w eq_refl eq_refl)
    as (_ & _ & T & Q & _).
  fold w' in T, Q. rewrite Q, T. split; reflexivity.
Defined.

End DrainClaims.

(** ** The offline queue *)

Module QueueFacts.
Import Platform Props ServiceWorker PlatformFacts DrainFacts DrainClaims JsStringFacts.
Local Open Scope js_scope.

Section WithHost.
Context `{Host}.

Lemma on_message_save now payload w :
  on_message now (SAVE_OFFLINE_DATA payload) w
  = (Fulfilled tt, snd (saveOfflineData now payload w)).
Proof. reflexivity. Qed.

Lemma saveOfflineData_run timestamp data w :
  let w0 := snd (caches_open OFFLINE w) in
  saveOfflineData timestamp data w
  = (Fulfilled tt,
     mkWorld (update_cache OFFLINE
                (fun c => without (GET (offline_url timestamp)) c
                            ++ [saved_entry timestamp data])
                (w_caches w0))
             (w_clients w0) (w_issued w0) (w_trace w0)
             (w_detached w0 ++ [TOfflineDataSaved timestamp data])).
Proof.
  unfold saveOfflineData, bind.
  destruct (caches_open OFFLINE w) as [r w0] eqn:E.
  assert (R : r = Fulfilled tt).
  { unfold caches_open in E. now inversion E. }
  subst r. reflexivity.
Qed.

Lemma forEach_saved timestamp data cs w :
  forEach (fun c =>
             ty <- lift (get_prop data "type") ;;
             postMessage c (OFFLINE_DATA_SAVED timestamp ty)) cs w
  = match get_prop data "type" with
    | Fulfilled ty =>
        (Fulfilled tt,
         mkWorld (w_caches w) (w_clients w) (w_issued w)
                 (w_trace w ++ map (fun c => EPost c (OFFLINE_DATA_SAVED timestamp ty)) cs)
                 (w_detached w))
    | Rejected e =>
        match cs with
        | [] => (Fulfilled tt, w)
        | _ => (Rejected e, w)
        end
    end.
Proof.
  destruct (get_prop data "type") as [ty|e].
  - revert w. induction cs as [|c cs IH]; intros w; cbn [forEach map].
    + unfold ret. rewrite app_nil_r. now destruct w.
    + unfold bind at 1. unfold bind at 1. unfold lift at 1.
      unfold postMessage at 1. unfold log at 1.
      rewrite IH. cbn. now rewrite <- app_assoc.
  - destruct cs; reflexivity.
Qed.

(** One enqueue, with its detached notification run. *)
Lemma save_run timestamp data w :
  w_detached w = [] ->
  run_detached (snd (saveOfflineData timestamp data w))
  = mkWorld (update_cache OFFLINE
               (fun c => without (GET (offline_url timestamp)) c
                           ++ [saved_entry timestamp data])
               (w_caches (snd (caches_open OFFLINE w))))
            (w_clients w) (w_issued w)
            (w_trace w ++ save_posts timestamp data (w_clients w)) [].
Proof.
  intros D. rewrite saveOfflineData_run. cbn [snd].
  destruct (open_keeps OFFLINE w) as (Kc & Ki & Kt & Kd).
  cbv zeta in Kc, Ki, Kt, Kd.
  rewrite run_detached_one with (t := TOfflineDataSaved timestamp data).
  2:{ cbn [w_detached]. now rewrite Kd, D. }
  cbn [w_caches w_clients w_issued w_trace run_task].
  unfold bind at 1. unfold clients_matchAll. cbn [w_clients].
  rewrite forEach_saved. unfold save_posts. rewrite Kc, Ki, Kt.
  destruct (get_prop data "type") as [ty|e]; [reflexivity|].
  destruct (w_clients w); cbn [snd]; now rewrite app_nil_r.
Qed.

Lemma save_step timestamp data w :
  w_detached w = [] ->
  let w' := run_detached (snd (saveOfflineData timestamp data w)) in
  w_detached w' = [] /\
  w_clients w' = w_clients w /\
  w_issued w' = w_issued w /\
  w_trace w' = w_trace w ++ save_posts timestamp data (w_clients w) /\
  entries OFFLINE w'
  = without (GET (offline_url timestamp)) (entries OFFLINE w)
      ++ [saved_entry timestamp data].
Proof.
  intros D w'. subst w'. rewrite (save_run _ _ _ D).
  cbn [w_detached w_clients w_issued w_trace]. repeat split.
  rewrite entries_mk, get_cache_update.
  pose proof (has_cache_open OFFLINE w) as Hc.
  pose proof (entries_open OFFLINE OFFLINE w) as Eo.
  unfold has_cache, entries in *.
  destruct (get_cache OFFLINE (w_caches (snd (caches_open OFFLINE w))));
    [|discriminate]. cbn [option_map]. now rewrite Eo.
Qed.

Lemma save_all_keys saves : forall stamps w,
  w_detached w = [] -> keyed_by stamps w ->
  let w' := save_all saves w in
  w_detached w' = [] /\ keyed_by (stamps ++ map fst saves) w'.
Proof.
  induction saves as [|[ts d] saves IH]; intros stamps w D K;
    unfold save_all; cbn [fold_left fst snd map].
  - rewrite app_nil_r. auto.
  - rewrite on_message_save. cbn [snd].
    destruct (save_step ts d w D) as (D' & _ & _ & _ & E).
    cbv zeta in D', E.
    set (w1 := run_detached (snd (saveOfflineData ts d w))) in *.
    change (fold_left _ saves w1) with (save_all saves w1).
    replace (stamps ++ ts :: map fst saves) with ((stamps ++ [ts]) ++ map fst saves)
      by now rewrite <- app_assoc.
    apply IH; [exact D'|].
    unfold keyed_by in *. rewrite E, map_app. apply Forall_app. split.
    + unfold without. rewrite <- filter_map_swap with (f := fun k => negb (matches (GET (offline_url ts)) k)).
      apply Forall_forall. intros k I. apply filter_In in I as [I _].
      rewrite Forall_forall in K. destruct (K k I) as (t & It & Ek).
      exists t. split; [apply in_or_app; now left|exact Ek].
    + constructor; [|constructor]. exists ts. split; [|reflexivity].
      apply in_or_app. right. now left.
Qed.

Lemma keyed_not_pending stamps w :
  wf_origin location -> keyed_by stamps w -> pending_trades w = [].
Proof.
  intros O K. unfold pending_trades, keyed_by in *.
  induction (entries OFFLINE w) as [|[k r] c IH]; cbn in *; [reflexivity|].
  inversion K as [|? ? (ts & _ & Ek) K']; subst.
  unfold is_trade at 1. cbn [r_url GET].
  unfold offline_url at 1. rewrite offline_url_not_trade by exact O.
  now apply IH.
Qed.

(** C4. Every payload the worker saves on a [SAVE_OFFLINE_DATA] message
    is keyed under [/api/offline/<timestamp>], a URL the drain does not
    select; so a drain of a queue that holds only such entries sends
    nothing, broadcasts [{synced: 0, total: 0}] and leaves the queue as
    it was. *)
Theorem C4_saved_entries_are_never_drained (saves : list (Z * json)) (w0 : World) :
  wf_origin location ->
  entries OFFLINE w0 = [] ->
  w_detached w0 = [] ->
  let w := save_all saves w0 in
  let r := syncOfflineTrades w in
  let w' := run_detached (snd r) in
  Forall (fun k => exists ts, In ts (map fst saves) /\ k = GET (offline_url ts))
         (map fst (entries OFFLINE w)) /\
  pending_trades w = [] /\
  fst r = Fulfilled tt /\
  w_issued w' = w_issued w /\
  w_trace w' = w_trace w
                 ++ map (fun c => EPost c (SYNC_COMPLETED 0 0)) (w_clients w) /\
  entries OFFLINE w' = entries OFFLINE w.
Proof.
  intros O E D w r w'.
  destruct (save_all_keys saves [] w0 D) as (Dw & K).
  { unfold keyed_by. rewrite E. constructor. }
  cbn [app] in K. fold w in Dw, K.
  pose proof (keyed_not_pending _ w O K) as P.
  split; [exact K|]. split; [exact P|].
  destruct (drain_then_broadcast w) as (R & I & T & Q).
  - now rewrite P.
  - rewrite P. contradiction.
  - exact Dw.
  - fold r w' in R, I, T, Q. rewrite P in I, T, Q. cbn in I, T, Q.
    split; [exact R|]. split; [lia|]. split; [exact T|].
    rewrite Q. clear. induction (entries OFFLINE w); cbn; congruence.
Qed.

End WithHost.

Lemma C4_witness :
  let H := Demo.host Demo.three_of_five in
  let w := save_all [(1000%Z, JNum 1); (2000%Z, JNull)] (Demo.empty_world [7]) in
  let w' := run_detached (snd (syncOfflineTrades w)) in
  length (entries OFFLINE w) = 2 /\
  w_issued w' = 0 /\
  entries OFFLINE w' = entries OFFLINE w.
Proof.
  intros H w w'.
  assert (O : wf_origin (@location H)) by (repeat split).
  destruct (C4_saved_entries_are_never_drained (H := H)
              [(1000%Z, JNum 1); (2000%Z, JNull)] (Demo.empty_world [7])
              O eq_refl eq_refl) as (_ & _ & _ & I & _ & Q).
  fold w w' in I, Q. split; [reflexivity|]. split; [exact I|exact Q].
Defined.

End QueueFacts.

Module QueueClaims.
Import Platform Props ServiceWorker PlatformFacts DrainFacts DrainClaims JsStringFacts QueueFacts.
Local Open Scope js_scope.

Lemma append_inj_l (s a b : string) : (s ++ a = s ++ b)%string -> a = b.
Proof. induction s as [|c s IH]; cbn; [auto|]. intros [= E]. auto. Qed.

Lemma append_empty_r (s : string) : (s ++ "")%string = s.
Proof. induction s as [|c s IH]; cbn; congruence. Qed.

Section WithHost.
Context `{Host}.

Lemma offline_url_inj t t' :
  href (offline_url t) = href (offline_url t') -> t = t'.
Proof.
  unfold offline_url, href, resolve.
  cbn [u_scheme u_hostname u_port u_pathname u_search].
  intros E. do 4 apply append_inj_l in E.
  rewrite !append_empty_r in E. apply append_inj_l in E.
  now apply of_Z_inj.
Qed.

Lemma find_saved timestamp data c :
  cache_find (GET (offline_url timestamp))
             (without (GET (offline_url timestamp)) c ++ [saved_entry timestamp data])
  = Some (new_Response (JSON_stringify data)).
Proof.
  rewrite cache_find_app, cache_find_without_same.
  unfold cache_find, saved_entry. cbn [find fst snd].
  now rewrite matches_self.
Qed.

Lemma saved_ids_app t t' : saved_ids (t ++ t') = saved_ids t ++ saved_ids t'.
Proof.
  induction t as [|e t IH]; cbn [app saved_ids]; [reflexivity|].
  destruct (saved_id e); cbn; now rewrite IH.
Qed.

Lemma saved_ids_posts id ty cs :
  saved_ids (map (fun c => EPost c (OFFLINE_DATA_SAVED id ty)) cs)
  = repeat id (length cs).
Proof. induction cs as [|c cs IH]; cbn; congruence. Qed.

Lemma non_decreasing_repeat t m : non_decreasing (repeat t m) = true.
Proof.
  induction m as [|m IH]; [reflexivity|].
  cbn [repeat non_decreasing]. destruct m as [|m]; [reflexivity|].
  cbn [repeat] in *. now rewrite Z.leb_refl.
Qed.

Lemma non_decreasing_two t1 t2 n m :
  (t1 <= t2)%Z -> non_decreasing (repeat t1 n ++ repeat t2 m) = true.
Proof.
  intros Le. induction n as [|n IH]; [apply non_decreasing_repeat|].
  cbn [repeat app non_decreasing].
  destruct n as [|n]; cbn [repeat app] in *.
  - destruct m as [|m]; [reflexivity|]. cbn [repeat].
    apply Z.leb_le in Le. rewrite Le. cbn [andb].
    apply (non_decreasing_repeat t2 (S m)).
  - now rewrite Z.leb_refl.
Qed.

(** C7, as the code has it.  The id of an enqueue is the clock reading
    at which it is made.  For two enqueues made at readings [t1 <= t2]
    the ids announced are [t1] then [t2], which do not decrease; each
    enqueue stores its payload under [/api/offline/<id>] and posts
    [OFFLINE_DATA_SAVED] with that id to every client; and both entries
    are in the queue when the readings differ. *)
Theorem C7_ids_are_clock_readings (w : World) (t1 t2 : Z) (d1 d2 ty1 ty2 : json) :
  w_detached w = [] ->
  get_prop d1 "type" = Fulfilled ty1 ->
  get_prop d2 "type" = Fulfilled ty2 ->
  (t1 <= t2)%Z ->
  let w1 := run_detached (snd (saveOfflineData t1 d1 w)) in
  let w2 := run_detached (snd (saveOfflineData t2 d2 w1)) in
  let n := length (w_clients w) in
  w_trace w2
  = w_trace w
      ++ map (fun c => EPost c (OFFLINE_DATA_SAVED t1 ty1)) (w_clients w)
      ++ map (fun c => EPost c (OFFLINE_DATA_SAVED t2 ty2)) (w_clients w) /\
  saved_ids (w_trace w2) = saved_ids (w_trace w) ++ repeat t1 n ++ repeat t2 n /\
  non_decreasing (repeat t1 n ++ repeat t2 n) = true /\
  cache_find (GET (offline_url t1)) (entries OFFLINE w1)
  = Some (new_Response (JSON_stringify d1)) /\
  cache_find (GET (offline_url t2)) (entries OFFLINE w2)
  = Some (new_Response (JSON_stringify d2)) /\
  ((t1 < t2)%Z ->
   cache_find (GET (offline_url t1)) (entries OFFLINE w2)
   = Some (new_Response (JSON_stringify d1))).
Proof.
  intros D T1 T2 Le w1 w2 n.
  destruct (save_step t1 d1 w D) as (D1 & C1 & _ & Tr1 & E1).
  cbv zeta in D1, C1, Tr1, E1. fold w1 in D1, C1, Tr1, E1.
  destruct (save_step t2 d2 w1 D1) as (_ & _ & _ & Tr2 & E2).
  cbv zeta in Tr2, E2. fold w2 in Tr2, E2.
  unfold save_posts in Tr1, Tr2. rewrite T1 in Tr1. rewrite T2, C1, Tr1 in Tr2.
  rewrite <- app_assoc in Tr2.
  split; [exact Tr2|]. split.
  { rewrite Tr2, !saved_ids_app, !saved_ids_posts. reflexivity. }
  split; [now apply non_decreasing_two|].
  split; [rewrite E1; apply find_saved|].
  split; [rewrite E2; apply find_saved|].
  intros Lt. rewrite E2, cache_find_app.
  rewrite cache_find_without_other; [|reflexivity|].
  - rewrite E1, find_saved. reflexivity.
  - unfold matches. cbn [r_method r_url GET].
    destruct (String.eqb (href (offline_url t2)) (href (offline_url t1))) eqn:X;
      [|reflexivity].
    apply String.eqb_eq, offline_url_inj in X. lia.
Qed.

End WithHost.

Lemma C7_witness :
  let H := Demo.host Demo.offline in
  let w := Demo.empty_world [3] in
  let w1 := run_detached (snd (saveOfflineData 1000 Demo.buy w)) in
  let w2 := run_detached (snd (saveOfflineData 2000 Demo.sell w1)) in
  saved_ids (w_trace w2) = [1000%Z; 2000%Z] /\
  length (entries OFFLINE w2) = 2.
Proof.
  intros H w w1 w2.
  destruct (C7_ids_are_clock_readings (H := H) w 1000 2000 Demo.buy Demo.sell
              (JStr "BUY") (JStr "SELL") eq_refl eq_refl eq_refl ltac:(lia))
    as (_ & I & _).
  fold w1 w2 in I. split; [exact I|reflexivity].
Defined.

(** C7 fails as stated: of two enqueues within one millisecond both are
    announced under the id 1000, and the queue holds the second payload
    only. *)
Lemma C7_same_millisecond_same_id :
  let H := Demo.host Demo.offline in
  let w := Demo.empty_world [3] in
  let w1 := run_detached (snd (saveOfflineData 1000 Demo.buy w)) in
  let w2 := run_detached (snd (saveOfflineData 1000 Demo.sell w1)) in
  saved_ids (w_trace w2) = [1000%Z; 1000%Z] /\
  ~ NoDup (saved_ids (w_trace w2)) /\
  entries OFFLINE w2 = [saved_entry 1000 Demo.sell].
Proof.
  intros H w w1 w2.
  assert (I : saved_ids (w_trace w2) = [1000%Z; 1000%Z]) by reflexivity.
  split; [exact I|]. split; [|reflexivity].
  rewrite I. intros N. inversion N as [|? ? Nin _]. apply Nin. now left.
Qed.

End QueueClaims.

(** ** Activation *)

Module ActivationFacts.
Import Platform Props PlatformFacts DrainFacts.
Local Open Scope js_scope.

Lemma filter_all {A} (f : A -> bool) (l : list A) :
  (forall x, f x = true) -> filter f l = l.
Proof.
  intros T. induction l as [|a l IH]; cbn; [reflexivity|]. now rewrite T, IH.
Qed.

Lemma cleanup_run stale names : forall w,
  allSettled (cleanup stale names) w
  = (Fulfilled (map (fun _ => Fulfilled tt) names),
     mkWorld (filter (fun nc => negb (existsb (fun n => stale n && String.eqb (fst nc) n) names))
                     (w_caches w))
             (w_clients w) (w_issued w)
             (w_trace w ++ map ECachesDelete (filter stale names))
             (w_detached w)).
Proof.
  induction names as [|n names IH]; intros w; cbn [cleanup map allSettled].
  - unfold ret. cbn [filter map existsb negb]. rewrite app_nil_r, filter_all by reflexivity.
    now destruct w.
  - fold (cleanup stale names). cbn [filter existsb].
    destruct (stale n) eqn:S.
    + unfold bind, caches_delete, ret. rewrite IH. cbn. f_equal. f_equal.
      * rewrite filter_filter. apply filter_ext. intros nc.
        now rewrite negb_orb.
      * now rewrite <- app_assoc.
    + unfold ret at 1. rewrite IH. cbn. reflexivity.
Qed.

Lemma first_rejection_none {A} (l : list A) :
  first_rejection (map (fun _ => Fulfilled tt) l) = Fulfilled (map (fun _ => tt) l).
Proof. induction l as [|a l IH]; cbn; [reflexivity|]. now rewrite IH. Qed.

Lemma stale_filter stale (cs : list (string * Cache)) :
  filter (fun nc => negb (existsb (fun n => stale n && String.eqb (fst nc) n)
                                  (map fst cs))) cs
  = filter (fun nc => negb (stale (fst nc))) cs.
Proof.
  apply filter_ext_in. intros nc I. f_equal.
  destruct (stale (fst nc)) eqn:S.
  - apply existsb_exists. exists (fst nc). split; [now apply in_map|].
    now rewrite S, String.eqb_refl.
  - apply not_true_is_false. intros X. apply existsb_exists in X as (n & _ & E).
    apply andb_true_iff in E as [Sn E]. apply String.eqb_eq in E. congruence.
Qed.

(** The activation of [service-worker.js]: the stale caches are
    deleted, in the order of [caches.keys()], and then the clients are
    claimed. *)
Lemma service_worker_activate w :
  let stale := fun n => negb (String.eqb n ServiceWorker.CACHE_NAME) in
  ServiceWorker.on_activate w
  = (Fulfilled tt,
     mkWorld (filter (fun nc => negb (stale (fst nc))) (w_caches w))
             (w_clients w) (w_issued w)
             (w_trace w ++ map ECachesDelete (filter stale (map fst (w_caches w)))
                        ++ [EClaim])
             (w_detached w)).
Proof.
  intros stale. unfold ServiceWorker.on_activate, bind, caches_keys, Promise_all, bind.
  change (map _ (map fst (w_caches w))) with (cleanup stale (map fst (w_caches w))).
  rewrite cleanup_run, stale_filter. unfold lift. rewrite first_rejection_none.
  unfold log. cbn. now rewrite <- app_assoc.
Qed.

(** The activation of [sw.js]: the clients are claimed first, the stale
    caches are deleted afterwards. *)
Lemma sw_activate w :
  let stale := fun n => negb (String.eqb n SW.STATIC_CACHE_NAME)
                        && negb (String.eqb n SW.DYNAMIC_CACHE_NAME) in
  SW.on_activate w
  = (Fulfilled tt,
     mkWorld (filter (fun nc => negb (stale (fst nc))) (w_caches w))
             (w_clients w) (w_issued w)
             (w_trace w ++ [EClaim]
                        ++ map ECachesDelete (filter stale (map fst (w_caches w))))
             (w_detached w)).
Proof.
  intros stale. unfold SW.on_activate, bind, caches_keys, Promise_all, bind, log.
  cbn [w_caches w_clients w_issued w_trace w_detached].
  change (map _ (map fst (w_caches w))) with (cleanup stale (map fst (w_caches w))).
  rewrite cleanup_run, stale_filter. unfold lift. rewrite first_rejection_none.
  unfold ret. cbn. now rewrite <- app_assoc.
Qed.

Lemma get_cache_filter_out name (keep : string -> bool) cs :
  keep name = false ->
  get_cache name (filter (fun nc => keep (fst nc)) cs) = None.
Proof.
  intros K. induction cs as [|[n c] cs IH]; cbn; [reflexivity|].
  destruct (keep n) eqn:E; cbn; [|exact IH].
  destruct (String.eqb n name) eqn:X; [|exact IH].
  apply String.eqb_eq in X. congruence.
Qed.

Section WithHost.
Context `{Host}.

(** C3, as the code has it.  Activation cleanup keeps the caches named
    [CACHE_NAME] and deletes every other one; the cache of the offline
    queue is one of those it deletes, so no queued trade is left once
    activation is over.  The drain, for its part, changes the caches
    for an entry only when the delivery of that entry was fulfilled. *)
Theorem C3_activation_deletes_the_queue (w : World) :
  let r := ServiceWorker.on_activate w in
  fst r = Fulfilled tt /\
  w_caches (snd r)
  = filter (fun nc => String.eqb (fst nc) ServiceWorker.CACHE_NAME) (w_caches w) /\
  has_cache ServiceWorker.OFFLINE (w_caches (snd r)) = false /\
  entries ServiceWorker.OFFLINE (snd r) = [] /\
  (forall request w0,
      is_fulfilled (fst (ServiceWorker.sync_one request w0)) = true \/
      w_caches (snd (ServiceWorker.sync_one request w0)) = w_caches w0).
Proof.
  intros r. subst r. rewrite service_worker_activate. cbn [fst snd w_caches].
  assert (E : filter (fun nc => negb (negb (String.eqb (fst nc) ServiceWorker.CACHE_NAME)))
                     (w_caches w)
              = filter (fun nc => String.eqb (fst nc) ServiceWorker.CACHE_NAME) (w_caches w)).
  { apply filter_ext. intros nc. apply negb_involutive. }
  rewrite E.
  assert (G : get_cache ServiceWorker.OFFLINE
                (filter (fun nc => String.eqb (fst nc) ServiceWorker.CACHE_NAME) (w_caches w))
              = None).
  { apply (get_cache_filter_out ServiceWorker.OFFLINE
             (fun n => String.eqb n ServiceWorker.CACHE_NAME)). reflexivity. }
  split; [reflexivity|]. split; [reflexivity|].
  split; [unfold has_cache; now rewrite G|].
  split; [unfold entries; cbn [w_caches]; now rewrite G|].
  intros request w0. rewrite sync_one_run.
  destruct (cache_find request (entries ServiceWorker.OFFLINE w0)) as [resp|];
    [|now right].
  destruct (JSON_parse (body resp)) as [data|]; [|now right].
  cbv zeta.
  destruct (net (w_issued w0) (ServiceWorker.sync_request data)) as [|sr];
    [now right|].
  destruct (ok sr); [now left|now right].
Qed.

End WithHost.

(** C3 fails as stated: five trades are queued, and after the
    activation none of them is. *)
Lemma C3_queue_lost_on_activation :
  let w := Demo.queue_world Demo.five_trades [7] in
  let w' := snd (ServiceWorker.on_activate w) in
  entries ServiceWorker.OFFLINE w = Demo.five_trades /\
  entries ServiceWorker.OFFLINE w' = [] /\
  ~ (forall e, In e (entries ServiceWorker.OFFLINE w) ->
               In e (entries ServiceWorker.OFFLINE w')).
Proof.
  intros w w'. split; [reflexivity|]. split; [reflexivity|].
  intros K. apply (K (Demo.trade "a" "1")). now left.
Qed.

(** C8, where the code departs from it.  Activation cleanup is to be
    over before the worker takes control of the open pages.  With a
    cache of the previous generation in storage, [sw.js] calls
    [clients.claim()] first and deletes the stale cache afterwards;
    [service-worker.js] deletes it and then claims. *)
Lemma C8_sw_claims_before_cleanup :
  let w := mkWorld [("neotrade-static-v3", []); (SW.STATIC_CACHE_NAME, [])]
                   [7] 0 [] [] in
  w_trace (snd (SW.on_activate w)) = [EClaim; ECachesDelete "neotrade-static-v3"] /\
  w_trace (snd (ServiceWorker.on_activate w))
  = [ECachesDelete "neotrade-static-v3"; ECachesDelete SW.STATIC_CACHE_NAME; EClaim].
Proof. split; reflexivity. Qed.

End ActivationFacts.

(** ** Request interception *)

Module FetchClaims.
Import Platform Props PlatformFacts DrainFacts DrainClaims.
Local Open Scope js_scope.

Section WithHost.
Context `{Host}.

Lemma fetch_run req w :
  fetch req w = (fetch_settle (w_issued w) req, issued req w).
Proof. unfold fetch, bind, fetch_issue, lift. reflexivity. Qed.

(** C2, as the code has it.  When the network fetch of an API-class
    request fails, both scripts answer with what [caches.match] finds
    for the request: the cached entry when there is one, and otherwise
    a response promise fulfilled with [undefined]; the failure of the
    fetch is not passed on. *)
Theorem C2_network_failure_falls_back_to_cache (request : Request) (w : World) :
  net (w_issued w) request = NetFail ->
  (ServiceWorker.is_api (r_url request) = true ->
   ServiceWorker.on_fetch request w
   = (RespondWith (Fulfilled (storage_find request (w_caches w))),
      issued request w)) /\
  (r_method request = "GET" -> SW.is_api (r_url request) = true ->
   SW.on_fetch request w
   = (RespondWith (Fulfilled (storage_find request (w_caches w))),
      issued request w)).
Proof.
  intros N. split.
  - intros A. unfold ServiceWorker.on_fetch. rewrite A.
    unfold ServiceWorker.network_first, catch, bind. rewrite fetch_run.
    unfold fetch_settle. rewrite N. reflexivity.
  - intros G A. unfold SW.on_fetch. rewrite G, A. cbn [negb String.eqb].
    change (negb ("GET" =? "GET")%string) with false. cbv iota.
    unfold SW.network_first, catch, bind. rewrite fetch_run.
    unfold fetch_settle. rewrite N. reflexivity.
Qed.

(** [sw.js] lets every request that is not a GET pass through: nothing
    is fetched by the worker, nothing is read from or written to a
    cache, nothing is left running. *)
Lemma sw_passes_non_get (request : Request) (w : World) :
  r_method request <> "GET" -> SW.on_fetch request w = (PassThrough, w).
Proof.
  intros N. unfold SW.on_fetch.
  destruct (String.eqb (r_method request) "GET") eqn:E; [|reflexivity].
  apply String.eqb_eq in E. contradiction.
Qed.

(** [service-worker.js] answers a cached static asset from the cache and
    does nothing else: no fetch is issued and no refresh is started. *)
Lemma service_worker_cache_hit (request : Request) (cached : Response) (w : World) :
  ServiceWorker.is_api (r_url request) = false ->
  storage_find request (w_caches w) = Some cached ->
  ServiceWorker.on_fetch request w = (RespondWith (Fulfilled (Some cached)), w).
Proof.
  intros A F. unfold ServiceWorker.on_fetch. rewrite A.
  unfold ServiceWorker.cache_first, bind, caches_match. rewrite F. reflexivity.
Qed.

(** [sw.js] answers a cached static asset from the cache, whatever the
    network does, having issued a fetch whose [then] it leaves
    detached; when that fetch brings a successful response, the entry of
    the static cache is replaced by it. *)
Lemma sw_cache_hit_refreshes (request : Request) (cached : Response) (w : World) :
  r_method request = "GET" ->
  SW.is_api (r_url request) = false ->
  storage_find request (w_caches w) = Some cached ->
  SW.on_fetch request w
  = (RespondWith (Fulfilled (Some cached)),
     detach (TRefresh (w_issued w) SW.STATIC_CACHE_NAME request)
            (issued request w)) /\
  (forall fresh,
      w_detached w = [] ->
      net (w_issued w) request = NetResp fresh -> ok fresh = true ->
      cache_find request
        (entries SW.STATIC_CACHE_NAME (run_detached (snd (SW.on_fetch request w))))
      = Some fresh).
Proof.
  intros G A F.
  assert (E : SW.on_fetch request w
              = (RespondWith (Fulfilled (Some cached)),
                 detach (TRefresh (w_issued w) SW.STATIC_CACHE_NAME request)
                        (issued request w))).
  { unfold SW.on_fetch. rewrite G, A.
    change (negb ("GET" =? "GET")%string) with false. cbv iota.
    unfold SW.cache_first, bind, caches_match. rewrite F. reflexivity. }
  split; [exact E|].
  intros fresh D N O. rewrite E. cbn [snd].
  rewrite run_detached_one with (t := TRefresh (w_issued w) SW.STATIC_CACHE_NAME request).
  2:{ unfold detach, issued. cbn [w_detached]. now rewrite D. }
  cbn [run_task]. unfold bind at 1. unfold lift, fetch_settle. rewrite N, O.
  unfold bind.
  match goal with |- context [caches_open ?n ?x] => set (w1 := x) end.
  pose proof (has_cache_open SW.STATIC_CACHE_NAME w1) as Hc.
  destruct (caches_open SW.STATIC_CACHE_NAME w1) as [r w2] eqn:Eo.
  assert (R : r = Fulfilled tt) by (unfold caches_open in Eo; now inversion Eo).
  subst r. cbn [snd] in Hc. unfold cache_put. rewrite G.
  change ("GET" =? "GET")%string with true. cbv iota. cbn [snd].
  rewrite entries_update_open by exact Hc.
  rewrite cache_find_app, cache_find_without_same.
  unfold cache_find. cbn [find fst snd]. now rewrite matches_self.
Qed.

End WithHost.

Lemma C2_witness :
  let H := Demo.host Demo.offline in
  let cached := mkResponse 200 cors "[]" in
  let w := mkWorld [(ServiceWorker.CACHE_NAME, []);
                    (SW.DYNAMIC_CACHE_NAME, [(Demo.ticker, cached)])] [7] 0 [] [] in
  fst (ServiceWorker.on_fetch Demo.ticker w) = RespondWith (Fulfilled (Some cached)) /\
  fst (SW.on_fetch Demo.ticker w) = RespondWith (Fulfilled (Some cached)).
Proof.
  intros H cached w.
  destruct (C2_network_failure_falls_back_to_cache (H := H) Demo.ticker w eq_refl)
    as [S1 S2].
  rewrite (S1 eq_refl), (S2 eq_refl eq_refl). split; reflexivity.
Defined.

(** C2 fails as stated: with nothing cached, the failed API request is
    answered with a fulfilled promise of [undefined] by both scripts,
    not with a rejection. *)
Lemma C2_miss_resolves_to_undefined :
  let H := Demo.host Demo.offline in
  let w := Demo.empty_world [7] in
  fst (ServiceWorker.on_fetch Demo.ticker w) = RespondWith (Fulfilled None) /\
  fst (SW.on_fetch Demo.ticker w) = RespondWith (Fulfilled None) /\
  ~ (exists e, fst (ServiceWorker.on_fetch Demo.ticker w) = RespondWith (Rejected e)) /\
  ~ (exists e, fst (SW.on_fetch Demo.ticker w) = RespondWith (Rejected e)).
Proof.
  intros H w. split; [reflexivity|]. split; [reflexivity|].
  split; intros [e E]; discriminate E.
Qed.

(** C5, where the code departs from it.  A request whose method is not
    read-only is to pass through with no interception.  On a POST to an
    API path the listener of [service-worker.js] takes the request over
    with its network-first strategy, fetches it itself and starts a
    write of the response into the cache, which the cache refuses;
    [sw.js] lets the same request pass through. *)
Lemma C5_service_worker_intercepts_post :
  let H := Demo.host (fun _ _ => Demo.answer 200 "done") in
  let w := Demo.empty_world [7] in
  let resp := mkResponse 200 basic "done" in
  ServiceWorker.on_fetch Demo.post_trade w
  = (RespondWith (Fulfilled (Some resp)),
     detach (TPut ServiceWorker.CACHE_NAME Demo.post_trade resp) (issued Demo.post_trade w)) /\
  fst (ServiceWorker.on_fetch Demo.post_trade w) <> PassThrough /\
  fst (run_task (TPut ServiceWorker.CACHE_NAME Demo.post_trade resp) (issued Demo.post_trade w))
  = Rejected (TypeError "Request method is unsupported") /\
  SW.on_fetch Demo.post_trade w = (PassThrough, w).
Proof.
  intros H w resp. split; [reflexivity|]. split; [discriminate|].
  split; reflexivity.
Qed.

(** C6, where the code departs from it.  A cached static asset is to be
    answered from the cache while a background fetch refreshes the
    entry.  [service-worker.js] returns the cached response and issues
    no fetch at all, so the entry is never refreshed; [sw.js] issues the
    refresh. *)
Lemma C6_service_worker_never_refreshes :
  let H := Demo.host (fun _ _ => Demo.answer 200 "new") in
  let old := mkResponse 200 basic "old" in
  let w := mkWorld [(ServiceWorker.CACHE_NAME, [(Demo.index_html, old)])] [7] 0 [] [] in
  let w' := run_detached (snd (ServiceWorker.on_fetch Demo.index_html w)) in
  ServiceWorker.on_fetch Demo.index_html w = (RespondWith (Fulfilled (Some old)), w) /\
  w_issued w' = 0 /\ w_trace w' = [] /\
  cache_find Demo.index_html (entries ServiceWorker.CACHE_NAME w') = Some old /\
  w_trace (snd (SW.on_fetch Demo.index_html w)) = [EFetch 0 Demo.index_html].
Proof. intros H old w w'. repeat split. Qed.

End FetchClaims.

(** ** Install *)

Module InstallClaims.
Import Platform Props PlatformFacts DrainFacts DrainClaims FetchClaims.
Local Open Scope js_scope.

Section WithHost.
Context `{Host}.

Lemma fetch_all_run reqs : forall w,
  allSettled (map fetch reqs) w
  = (Fulfilled (settles (w_issued w) reqs),
     mkWorld (w_caches w) (w_clients w) (w_issued w + length reqs)
             (w_trace w ++ fetch_events (w_issued w) reqs) (w_detached w)).
Proof.
  induction reqs as [|q reqs IH]; intros w; cbn [map allSettled settles fetch_events length].
  - unfold ret. rewrite Nat.add_0_r, app_nil_r. now destruct w.
  - rewrite fetch_run, IH. unfold issued. cbn. rewrite <- app_assoc. cbn.
    do 2 f_equal. lia.
Qed.

Lemma all_ok_failed reqs : forall n,
  any_failed n reqs = true -> all_ok (settles n reqs) = None.
Proof.
  unfold all_ok.
  induction reqs as [|q reqs IH]; intros n; cbn [any_failed settles]; [discriminate|].
  unfold fetch_settle, failed. destruct (net n q) as [|r]; cbn [first_rejection orb].
  - reflexivity.
  - intros E. specialize (IH (S n)).
    destruct (first_rejection (settles (S n) reqs)) as [l|e]; [|reflexivity].
    cbn [forallb]. destruct (ok r); cbn [negb orb andb] in *; [|reflexivity].
    specialize (IH E). destruct (forallb ok l); [discriminate IH|reflexivity].
Qed.

Lemma all_ok_passed reqs : forall n,
  any_failed n reqs = false ->
  exists l, all_ok (settles n reqs) = Some l /\ length l = length reqs.
Proof.
  unfold all_ok.
  induction reqs as [|q reqs IH]; intros n; cbn [any_failed settles].
  - intros _. exists []. split; reflexivity.
  - unfold fetch_settle, failed. destruct (net n q) as [|r]; cbn [first_rejection orb];
      [discriminate|].
    intros E. apply orb_false_iff in E as [Er E]. apply negb_false_iff in Er.
    destruct (IH (S n) E) as (l & El & Ll).
    destruct (first_rejection (settles (S n) reqs)) as [l'|e]; [|discriminate].
    exists (r :: l). cbn [forallb length]. rewrite Er. cbn [andb].
    destruct (forallb ok l'); [|discriminate]. inversion El; subst.
    split; [reflexivity|]. now rewrite Ll.
Qed.

Lemma map_fst_combine {A B} (l : list A) : forall (l' : list B),
  length l = length l' -> map fst (combine l l') = l.
Proof.
  induction l as [|a l IH]; intros [|b l']; cbn; try discriminate; [reflexivity|].
  intros [= E]. now rewrite IH.
Qed.

Lemma stored_after_put q q0 r0 c :
  r_method q0 = "GET" ->
  cache_find q c <> None \/ (q = q0 /\ r_method q = "GET") ->
  cache_find q (without q0 c ++ [(q0, r0)]) <> None.
Proof.
  intros G0 [S|[-> G]]; rewrite cache_find_app.
  - destruct (matches q q0) eqn:M.
    + destruct (cache_find q (without q0 c)); [discriminate|].
      unfold cache_find. cbn [find fst]. rewrite M. discriminate.
    + assert (M0 : matches q0 q = false).
      { unfold matches in *. rewrite G0, String.eqb_refl. cbn [andb].
        destruct (cache_find q c) as [x|] eqn:Fq; [|contradiction].
        unfold cache_find in Fq.
        destruct (find (fun e => matches q (fst e)) c) as [e|] eqn:Fe; [|discriminate].
        apply find_some in Fe as [_ Me]. apply matches_href in Me as [Gq _].
        rewrite Gq, String.eqb_refl in M. cbn [andb] in M.
        now rewrite String.eqb_sym. }
      rewrite cache_find_without_other by assumption.
      destruct (cache_find q c); [discriminate|contradiction].
  - rewrite cache_find_without_same.
    unfold cache_find. cbn [find fst]. rewrite matches_self by exact G. discriminate.
Qed.

(** Writing the fetched manifest: every request written, and every
    request stored before, is stored afterwards. *)
Lemma put_all_run name es : forall w,
  has_cache name (w_caches w) = true ->
  Forall (fun e => r_method (fst e) = "GET") es ->
  exists w',
    put_all name es w = (Fulfilled tt, w') /\
    has_cache name (w_caches w') = true /\
    (forall q, stored name q w = true \/ In q (map fst es) ->
               stored name q w' = true).
Proof.
  induction es as [|[q0 r0] es IH]; intros w Hc G; cbn [put_all].
  - exists w. split; [reflexivity|]. split; [exact Hc|].
    intros q [S|[]]. exact S.
  - inversion G as [|? ? G0 G']; subst. cbn [fst] in G0.
    unfold bind, cache_put. rewrite G0.
    change ("GET" =? "GET")%string with true. cbv iota.
    set (w1 := set_caches _ w).
    assert (Hc1 : has_cache name (w_caches w1) = true).
    { unfold w1, has_cache in *. cbn [set_caches w_caches]. rewrite get_cache_update.
      destruct (get_cache name (w_caches w)); [reflexivity|discriminate]. }
    destruct (IH w1 Hc1 G') as (w' & E & Hc' & K).
    exists w'. split; [exact E|]. split; [exact Hc'|].
    intros q S. apply K.
    assert (X : stored name q w = true \/ q = q0 \/ In q (map fst es)).
    { cbn [map fst In] in S. destruct S as [S|[S|S]]; auto. }
    clear S. destruct X as [S|[->|S]]; [left|left|right; exact S].
    + unfold stored, w1 in *. rewrite entries_update_open by exact Hc.
      destruct (cache_find q (entries name w)) eqn:Fq; [|discriminate].
      pose proof (stored_after_put q q0 r0 (entries name w) G0) as P.
      destruct (cache_find q (without q0 (entries name w) ++ [(q0, r0)]));
        [reflexivity|]. exfalso. apply P; [left; congruence|reflexivity].
    + unfold stored, w1. rewrite entries_update_open by exact Hc.
      pose proof (stored_after_put q0 q0 r0 (entries name w) G0) as P.
      destruct (cache_find q0 (without q0 (entries name w) ++ [(q0, r0)]));
        [reflexivity|]. exfalso. apply P; [right; auto|reflexivity].
Qed.

Lemma install_chain_failed name reqs w :
  any_failed (w_issued w) reqs = true ->
  let w0 := snd (caches_open name w) in
  install_chain name reqs w
  = (Rejected (TypeError "Request failed"),
     mkWorld (w_caches w0) (w_clients w) (w_issued w + length reqs)
             (w_trace w ++ fetch_events (w_issued w) reqs) (w_detached w)).
Proof.
  intros F w0. unfold install_chain. unfold bind at 1.
  destruct (open_keeps name w) as (Kc & Ki & Kt & Kd). cbv zeta in Kc, Ki, Kt, Kd.
  change (caches_open name w) with (Fulfilled tt, w0). cbv beta iota.
  unfold cache_addAll. unfold bind at 1.
  rewrite fetch_all_run. fold w0 in Kc, Ki, Kt, Kd. rewrite Ki, Kt, Kc, Kd.
  rewrite (all_ok_failed _ _ F). reflexivity.
Qed.

Lemma install_chain_passed name reqs w :
  Forall (fun q => r_method q = "GET") reqs ->
  any_failed (w_issued w) reqs = false ->
  exists w',
    install_chain name reqs w = (Fulfilled tt, w') /\
    (forall q, In q reqs -> stored name q w' = true).
Proof.
  intros G F. unfold install_chain. unfold bind at 1.
  destruct (open_keeps name w) as (Kc & Ki & Kt & Kd). cbv zeta in Kc, Ki, Kt, Kd.
  pose proof (has_cache_open name w) as Hc.
  set (w0 := snd (caches_open name w)) in *.
  change (caches_open name w) with (Fulfilled tt, w0). cbv beta iota.
  unfold cache_addAll. unfold bind at 1.
  rewrite fetch_all_run. rewrite Ki.
  destruct (all_ok_passed _ _ F) as (l & El & Ll). rewrite El.
  set (w1 := mkWorld _ _ _ _ _).
  destruct (put_all_run name (combine reqs l) w1) as (w' & E & _ & K).
  - exact Hc.
  - apply Forall_forall. intros [q r] I. apply in_combine_l in I.
    rewrite Forall_forall in G. now apply G.
  - exists w'. split; [exact E|]. intros q I. apply K. right.
    rewrite map_fst_combine; [exact I|lia].
Qed.

Lemma manifest_is_get specs : Forall (fun q => r_method q = "GET") (map request_of specs).
Proof. apply Forall_forall. intros q I. apply in_map_iff in I as (s & <- & _). reflexivity. Qed.

(** C9. Install is all or nothing, in both scripts: if the fetch of any
    entry of the manifest fails, the promise of the install is rejected,
    so the install phase fails and the worker is discarded, and no
    entry of any cache has changed; and the worker is installed, hence
    eligible to activate, only with every entry of the manifest stored
    in the static cache. *)
Theorem C9_install_is_all_or_nothing (w : World) :
  let m1 := map request_of ServiceWorker.CACHE_URLS in
  let m2 := map request_of SW.STATIC_ASSETS in
  let r1 := ServiceWorker.on_install w in
  let r2 := SW.on_install w in
  (any_failed (w_issued w) m1 = true ->
   after_install (fst r1) = Redundant /\
   forall name, entries name (snd r1) = entries name w) /\
  (after_install (fst r1) = Installed ->
   forall q, In q m1 -> stored ServiceWorker.CACHE_NAME q (snd r1) = true) /\
  (any_failed (w_issued w) m2 = true ->
   after_install (fst r2) = Redundant /\
   forall name, entries name (snd r2) = entries name w) /\
  (after_install (fst r2) = Installed ->
   forall q, In q m2 -> stored SW.STATIC_CACHE_NAME q (snd r2) = true).
Proof.
  intros m1 m2 r1 r2.
  assert (E1 : r1 = (install_chain ServiceWorker.CACHE_NAME m1 ;; log ESkipWaiting) w).
  { unfold r1, ServiceWorker.on_install, install_chain, bind.
    destruct (caches_open ServiceWorker.CACHE_NAME w) as [[]?]; [|reflexivity].
    destruct (cache_addAll _ _ _) as [[]?]; reflexivity. }
  assert (E2 : r2 = install_chain SW.STATIC_CACHE_NAME m2
                      (snd (log ESkipWaiting w))).
  { reflexivity. }
  assert (B1 : any_failed (w_issued w) m1 = true ->
               exists e w', r1 = (Rejected e, w') /\
                            forall name, entries name w' = entries name w).
  { intros F. rewrite E1. unfold bind at 1.
    rewrite (install_chain_failed _ _ _ F). cbv zeta.
    eexists _, _. split; [reflexivity|]. intros name.
    exact (entries_open ServiceWorker.CACHE_NAME name w). }
  assert (B2 : any_failed (w_issued w) m2 = true ->
               exists e w', r2 = (Rejected e, w') /\
                            forall name, entries name w' = entries name w).
  { intros F. rewrite E2.
    rewrite (install_chain_failed _ _ (snd (log ESkipWaiting w)) F). cbv zeta.
    eexists _, _. split; [reflexivity|]. intros name.
    exact (entries_open SW.STATIC_CACHE_NAME name (snd (log ESkipWaiting w))). }
  split; [|split; [|split]].
  - intros F. destruct (B1 F) as (e & w' & -> & K). split; [reflexivity|exact K].
  - destruct (any_failed (w_issued w) m1) eqn:F.
    + destruct (B1 eq_refl) as (e & w' & -> & _). discriminate.
    + intros _ q I.
      destruct (install_chain_passed ServiceWorker.CACHE_NAME m1 w
                  (manifest_is_get _) F) as (w' & E & K).
      rewrite E1. unfold bind at 1. rewrite E. unfold log. cbn [snd].
      specialize (K q I). unfold stored in *. now rewrite entries_mk.
  - intros F. destruct (B2 F) as (e & w' & -> & K). split; [reflexivity|exact K].
  - destruct (any_failed (w_issued w) m2) eqn:F.
    + destruct (B2 eq_refl) as (e & w' & -> & _). discriminate.
    + intros _ q I.
      destruct (install_chain_passed SW.STATIC_CACHE_NAME m2
                  (snd (log ESkipWaiting w)) (manifest_is_get _) F) as (w' & E & K).
      rewrite E2, E. cbn [snd]. now apply K.
Qed.

End WithHost.

(** With the network down the install fails and stores nothing; with
    every asset answered it succeeds and the index page is stored. *)
Lemma C9_witness :
  let down := Demo.host Demo.offline in
  let up := Demo.host (fun _ _ => Demo.answer 200 "asset") in
  let w := Demo.empty_world [] in
  let page := GET (resolve Demo.origin "/index.html") in
  (after_install (fst (@ServiceWorker.on_install down w)) = Redundant /\
   after_install (fst (@SW.on_install down w)) = Redundant) /\
  (stored ServiceWorker.CACHE_NAME page (snd (@ServiceWorker.on_install up w)) = true /\
   stored SW.STATIC_CACHE_NAME page (snd (@SW.on_install up w)) = true).
Proof.
  intros down up w page.
  destruct (C9_install_is_all_or_nothing (H := down) w) as (F1 & _ & F2 & _).
  destruct (C9_install_is_all_or_nothing (H := up) w) as (_ & S1 & _ & S2).
  split.
  - split; [exact (proj1 (F1 eq_refl))|exact (proj1 (F2 eq_refl))].
  - split; [apply (S1 eq_refl)|apply (S2 eq_refl)]; cbn; auto.
Defined.

End InstallClaims.

(** ** Push *)

Module PushClaims.
Import Platform Props.
Local Open Scope js_scope.

Section WithHost.
Context `{Host}.

(** [service-worker.js] shows a payload that is not JSON as the body of
    a notification titled NeoTrade, and its handler is fulfilled. *)
Lemma service_worker_push_falls_back (text : string) (w : World) :
  JSON_parse text = None ->
  ServiceWorker.on_push (Some text) w
  = (Fulfilled tt,
     mkWorld (w_caches w) (w_clients w) (w_issued w)
             (w_trace w ++ [ENotify (JStr "NeoTrade") (plain_text_options text)])
             (w_detached w)).
Proof.
  intros P. unfold ServiceWorker.on_push, bind, catch, lift, data_json, data_text.
  rewrite P. reflexivity.
Qed.

(** [sw.js] rejects on such a payload, having shown nothing. *)
Lemma sw_push_rejects (now : Z) (text : string) (w : World) :
  JSON_parse text = None ->
  SW.on_push now (Some text) w = (Rejected (SyntaxError "Unexpected token"), w).
Proof.
  intros P. unfold SW.on_push, bind, lift, data_json. rewrite P. reflexivity.
Qed.

End WithHost.

(** C10, where the code departs from it.  A push whose payload is not
    structured data is to be shown as a plain-text notification.  On
    the payload [hello] the handler of [sw.js] fails with the parse
    error and shows no notification, where that of [service-worker.js]
    shows the text. *)
Lemma C10_sw_push_fails_on_plain_text :
  let H := Demo.host Demo.offline in
  let w := Demo.empty_world [7] in
  JSON_parse "hello" = None /\
  SW.on_push 0 (Some "hello") w = (Rejected (SyntaxError "Unexpected token"), w) /\
  w_trace (snd (SW.on_push 0 (Some "hello") w)) = [] /\
  ServiceWorker.on_push (Some "hello") w
  = (Fulfilled tt,
     mkWorld [] [7] 0 [ENotify (JStr "NeoTrade") (plain_text_options "hello")] []).
Proof. intros H w. repeat split. Qed.

End PushClaims.
